(** * felixcraft-site: the payment verification handlers

    A shallow embedding of [src/api/verify-crypto.js], which holds the two
    request handlers of the site:

    - the crypto verifier ([handler], [fetchTxReceipt], [verifyUSDCTransfer],
      [buildEmailHTML]), and
    - the card webhook handler (the Stripe [handler] after the separator line).

    JavaScript values are modelled as the code uses them: strings as
    sequences of code units, numbers as IEEE-754 binary64 values (the
    specification floats of the Standard Library, which compute), exceptions
    and the two outbound calls (the JSON-RPC fetch and the email send) through
    a small monad that records every call in a trace. *)

From Stdlib Require Import ZArith List String Ascii Bool Lia.
From Stdlib Require Import Floats.SpecFloat.
From Stdlib Require Import DecimalString.
Import ListNotations.

Local Open Scope string_scope.
Local Open Scope Z_scope.

(* ===================================================================== *)
(** * JavaScript strings *)
(* ===================================================================== *)

(** A string is a sequence of code units. The model covers the code units
    U+0000 to U+00FF (one [ascii] each), which is where hex words, addresses
    and the ASCII punctuation of the two patterns live. *)
Module JSString.

Definition code (c : ascii) : Z := Z.of_N (N_of_ascii c).

Definition in_range (lo hi : Z) (c : ascii) : bool :=
  (lo <=? code c) && (code c <=? hi).

(** [String.prototype.toLowerCase] on one code unit: A-Z, and the upper-case
    letters of the Latin-1 block (U+00C0 to U+00DE without the multiplication
    sign U+00D7), move up by 32. *)
Definition lower_char (c : ascii) : ascii :=
  if in_range 65 90 c
     || (in_range 192 222 c && negb (code c =? 215))
  then ascii_of_N (N_of_ascii c + 32)
  else c.

Fixpoint toLowerCase (s : string) : string :=
  match s with
  | EmptyString => EmptyString
  | String c r => String (lower_char c) (toLowerCase r)
  end.

(** [s.slice(start)] for a start index that is not negative. *)
Fixpoint slice (s : string) (start : nat) {struct start} : string :=
  match start, s with
  | O, _ => s
  | S n, EmptyString => EmptyString
  | S n, String _ r => slice r n
  end.

(** White space and line terminators ([\s], and what [parseInt] trims). *)
Definition is_space (c : ascii) : bool :=
  in_range 9 13 c || (code c =? 32) || (code c =? 160).

Fixpoint trimStart (s : string) : string :=
  match s with
  | String c r => if is_space c then trimStart r else s
  | EmptyString => EmptyString
  end.

(** [!s]: the empty string is the only falsy string. *)
Definition truthy (s : string) : bool := negb (String.eqb s "").

(** A property that is absent ([undefined] or [null]) or a string. *)
Definition truthy_opt (v : option string) : bool :=
  match v with
  | Some s => truthy s
  | None => false
  end.

(** A template literal is written line by line; the double quote, the
    middle dot U+00B7 and the line feed are named. *)
Definition dq : string := String "034"%char "".
Definition middot : string := String "183"%char "".
Definition newline : string := String "010"%char "".
Definition lines (ls : list string) : string := String.concat newline ls.

End JSString.

(* ===================================================================== *)
(** * Regular expressions *)
(* ===================================================================== *)

(** The two patterns of the crypto handler are anchored on both sides, so
    [RegExp.prototype.test] decides membership of the whole string in the
    pattern's language. The matcher takes derivatives. *)
Module Regex.

Inductive regex : Type :=
| Void : regex
| Eps : regex
| Class (p : ascii -> bool) : regex
| Cat (r1 r2 : regex) : regex
| Alt (r1 r2 : regex) : regex
| Star (r : regex) : regex.

Definition Chr (c : ascii) : regex := Class (Ascii.eqb c).

(** [r+] *)
Definition Plus (r : regex) : regex := Cat r (Star r).

(** [r{n}] *)
Fixpoint Times (n : nat) (r : regex) : regex :=
  match n with
  | O => Eps
  | S k => Cat r (Times k r)
  end.

Fixpoint nullable (r : regex) : bool :=
  match r with
  | Void => false
  | Eps => true
  | Class _ => false
  | Cat r1 r2 => nullable r1 && nullable r2
  | Alt r1 r2 => nullable r1 || nullable r2
  | Star _ => true
  end.

Fixpoint deriv (c : ascii) (r : regex) : regex :=
  match r with
  | Void => Void
  | Eps => Void
  | Class p => if p c then Eps else Void
  | Cat r1 r2 =>
      if nullable r1
      then Alt (Cat (deriv c r1) r2) (deriv c r2)
      else Cat (deriv c r1) r2
  | Alt r1 r2 => Alt (deriv c r1) (deriv c r2)
  | Star r1 => Cat (deriv c r1) (Star r1)
  end.

(** [/^r$/.test(s)] *)
Fixpoint test (r : regex) (s : string) : bool :=
  match s with
  | EmptyString => nullable r
  | String c rest => test (deriv c r) rest
  end.

(** The language of a pattern, as a relation. *)
Inductive Matches : regex -> string -> Prop :=
| MEps : Matches Eps ""
| MClass p c : p c = true -> Matches (Class p) (String c "")
| MCat r1 r2 s1 s2 :
    Matches r1 s1 -> Matches r2 s2 -> Matches (Cat r1 r2) (s1 ++ s2)
| MAltL r1 r2 s : Matches r1 s -> Matches (Alt r1 r2) s
| MAltR r1 r2 s : Matches r2 s -> Matches (Alt r1 r2) s
| MStar0 r : Matches (Star r) ""
| MStarS r s1 s2 :
    Matches r s1 -> Matches (Star r) s2 -> Matches (Star r) (s1 ++ s2).

End Regex.

(* ===================================================================== *)
(** * JavaScript numbers *)
(* ===================================================================== *)

Module JSNumber.

Import JSString.

(** A Number is a binary64 value. *)
Definition number : Type := spec_float.

Definition prec : Z := 53.
Definition emax : Z := 1024.

Definition NaN : number := S754_nan.

(** The Number value for an integer: round to nearest, ties to even;
    [neg_zero] chooses the sign of a zero. *)
Definition of_Z_signed (z : Z) (neg_zero : bool) : number :=
  binary_normalize prec emax z 0 neg_zero.

Definition of_Z (z : Z) : number := of_Z_signed z false.

(** [x < y], [x <= y], [x >= y] and [x / y] on Numbers. Every comparison
    with [NaN] is false. *)
Definition lt (x y : number) : bool := SFltb x y.
Definition le (x y : number) : bool := SFleb x y.
Definition ge (x y : number) : bool := SFleb y x.
Definition gt (x y : number) : bool := SFltb y x.
Definition div (x y : number) : number := SFdiv prec emax x y.

(** The value of a digit in a radix up to 36. *)
Definition digit_value (c : ascii) : option Z :=
  if in_range 48 57 c then Some (code c - 48)
  else if in_range 97 122 c then Some (code c - 87)
  else if in_range 65 90 c then Some (code c - 55)
  else None.

Definition radix_digit (radix : Z) (c : ascii) : option Z :=
  match digit_value c with
  | Some d => if d <? radix then Some d else None
  | None => None
  end.

(** The longest prefix of digits of the radix, read as an integer;
    [None] when the prefix is empty. *)
Fixpoint read_digits (radix : Z) (s : string) (acc : option Z) : option Z :=
  match s with
  | String c r =>
      match radix_digit radix c with
      | Some d =>
          read_digits radix r
            (Some (match acc with Some a => a * radix + d | None => d end))
      | None => acc
      end
  | EmptyString => acc
  end.

Definition strip_sign (s : string) : bool * string :=
  match s with
  | String "-" r => (true, r)
  | String "+" r => (false, r)
  | _ => (false, s)
  end.

Definition has_hex_prefix (s : string) : bool :=
  match s with
  | String "0" (String "x" _) => true
  | String "0" (String "X" _) => true
  | _ => false
  end.

(** The integer that [parseInt] reads, with the sign it saw: leading white
    space is trimmed and a sign is read; with radix 16 or 0 a prefix [0x]
    or [0X] is dropped (and makes the radix 16; radix 0 is 10 without it);
    the longest prefix of digits is the integer. [None] when there is no
    digit. *)
Definition parse_integer (s : string) (radix : Z) : option (bool * Z) :=
  let '(neg, s1) := strip_sign (trimStart s) in
  let prefixed := ((radix =? 0) || (radix =? 16)) && has_hex_prefix s1 in
  let R := if prefixed then 16 else if radix =? 0 then 10 else radix in
  let s2 := if prefixed then slice s1 2 else s1 in
  match read_digits R s2 None with
  | None => None
  | Some n => Some (neg, if neg then - n else n)
  end.

(** [parseInt(string, radix)]: [NaN] for a radix other than 0 outside 2 to
    36, else the integer read, rounded to a Number ([-0] for a zero behind
    a minus sign), or [NaN] when there is no digit. The integer is exact
    for radix 16. *)
Definition parseInt (s : string) (radix : Z) : number :=
  if negb (radix =? 0) && ((radix <? 2) || (36 <? radix)) then NaN
  else
    match parse_integer s radix with
    | None => NaN
    | Some (neg, n) => of_Z_signed n neg
    end.

(** ** Decimal rendering *)

Definition decimal (n : Z) : string :=
  NilZero.string_of_uint (N.to_uint (Z.to_N n)).

Fixpoint zeros (n : nat) : string :=
  match n with
  | O => ""
  | S k => String "0" (zeros k)
  end.

(** The digits of [n] with a point before the last [f] digits, padded with
    zeros on the left to at least [f + 1] digits. *)
Definition with_fraction (n : Z) (f : nat) : string :=
  let m := decimal n in
  let m := zeros (S f - String.length m) ++ m in
  let k := String.length m in
  match f with
  | O => m
  | _ => substring 0 (k - f) m ++ "." ++ substring (k - f) f m
  end.

(** The integer nearest to [mant * 2^e * 10^f], the larger one on a tie. *)
Definition scaled_nearest (mant : positive) (e : Z) (f : nat) : Z :=
  let p := 10 ^ Z.of_nat f in
  if 0 <=? e then Zpos mant * 2 ^ e * p
  else (2 * Zpos mant * p + 2 ^ (- e)) / 2 ^ (1 - e).

Definition strip_trailing_zeros_aux (c : ascii) (acc : string) : string :=
  match acc with
  | EmptyString => if Ascii.eqb c "0" then "" else String c ""
  | _ => String c acc
  end.

Fixpoint strip_trailing_zeros (s : string) : string :=
  match s with
  | EmptyString => ""
  | String c r => strip_trailing_zeros_aux c (strip_trailing_zeros r)
  end.

(** Exponent notation for an integer [v > 0]: its digits without trailing
    zeros, a point after the first one, and the exponent. *)
Definition exponent_notation (v : Z) : string :=
  let ds := decimal v in
  let n := String.length ds in
  match strip_trailing_zeros ds with
  | String d EmptyString => String d "" ++ "e+" ++ decimal (Z.of_nat (n - 1))
  | String d rest => String d "" ++ "." ++ rest ++ "e+" ++ decimal (Z.of_nat (n - 1))
  | EmptyString => "0"
  end.

(** The decimal with [k] significant digits that is nearest to the integer
    [X] among those that round to the Number [x], if there is one: only the
    two neighbours of [X] on the grid of [k]-digit decimals can be it. *)
Definition shortest_at (x : number) (X : Z) (k : nat) : option Z :=
  let D := String.length (decimal X) in
  let p := 10 ^ Z.of_nat (D - k) in
  let lo := X / p * p in
  let hi := lo + p in
  let ok v := match SFcompare (of_Z v) x with Some Eq => true | _ => false end in
  match ok lo, ok hi with
  | true, true =>
      if X - lo <? hi - X then Some lo
      else if hi - X <? X - lo then Some hi
      else if Z.even (lo / p) then Some lo else Some hi
  | true, false => Some lo
  | false, true => Some hi
  | false, false => None
  end.

Fixpoint shortest_from (x : number) (X : Z) (k : nat) (fuel : nat) : Z :=
  match fuel with
  | O => X
  | S fuel' =>
      match shortest_at x X k with
      | Some v => v
      | None => shortest_from x X (S k) fuel'
      end
  end.

(** [Number::toString] for a finite Number of magnitude at least 10^21
    (an integer [mant * 2^e]): the shortest decimal that reads back as the
    same Number, in exponent notation. Seventeen digits always suffice. *)
Definition toString_large (mant : positive) (e : Z) : string :=
  let X := Zpos mant * 2 ^ e in
  exponent_notation (shortest_from (S754_finite false mant e) X 1 17).

(** [x.toFixed(f)] for [f] from 0 to 100. *)
Definition toFixed (x : number) (f : nat) : string :=
  match x with
  | S754_nan => "NaN"
  | S754_infinity false => "Infinity"
  | S754_infinity true => "-Infinity"
  | S754_zero _ => with_fraction 0 f
  | S754_finite neg mant e =>
      let sign := if neg then "-" else "" in
      if (0 <=? e) && (10 ^ 21 <=? Zpos mant * 2 ^ e)
      then sign ++ toString_large mant e
      else sign ++ with_fraction (scaled_nearest mant e f) f
  end.

End JSNumber.

(* ===================================================================== *)
(** * Responses, effects and exceptions *)
(* ===================================================================== *)

Module Http.

(** The JSON values the handlers answer with: objects whose properties are
    strings and booleans. *)
Inductive value : Type :=
| JString (s : string)
| JBool (b : bool).

Definition json : Type := list (string * value).

Definition JObject (properties : list (string * value)) : json := properties.

(** What [res.setHeader], [res.status(c)] and [.json(v)] or [.end()] leave. *)
Record response : Type := mkResponse {
  status_code : Z;
  headers : list (string * string);
  body : option json
}.

End Http.

Module Effects.

Import Http.

(** A thrown [Error] and its [message]. *)
Inductive error : Type :=
| Error (message : string).

Definition message (e : error) : string :=
  match e with Error m => m end.

(** How an evaluation ends: with a value, or with a throw. *)
Inductive completion (A : Type) : Type :=
| Normal (a : A)
| Throw (e : error).
Arguments Normal {A} a.
Arguments Throw {A} e.

(** The argument of [resend.emails.send]. *)
Record mail : Type := mkMail {
  from : string;
  to : string;
  subject : string;
  html : string
}.

(** What a handler does to the outside: the JSON-RPC POST, the email send
    and console output (recorded by its leading text). *)
Inductive event : Type :=
| RpcPost (url : string) (method : string) (params : list string)
| EmailSend (m : mail)
| ConsoleLog (text : string)
| ConsoleError (text : string).

(** A computation that may throw, and appends the calls it makes to the
    trace. *)
Definition M (A : Type) : Type := list event -> completion A * list event.

Definition ret {A} (a : A) : M A := fun tr => (Normal a, tr).

Definition throw {A} (e : error) : M A := fun tr => (Throw e, tr).

Definition bind {A B} (m : M A) (k : A -> M B) : M B :=
  fun tr =>
    match m tr with
    | (Normal a, tr') => k a tr'
    | (Throw e, tr') => (Throw e, tr')
    end.

Definition emit (ev : event) : M unit := fun tr => (Normal tt, (tr ++ [ev])%list).

(** [try { m } catch (e) { handler e }] *)
Definition try_catch {A} (m : M A) (handler : error -> M A) : M A :=
  fun tr =>
    match m tr with
    | (Normal a, tr') => (Normal a, tr')
    | (Throw e, tr') => handler e tr'
    end.

(** A pure evaluation that may throw, inside [M]. *)
Definition lift {A} (c : completion A) : M A := fun tr => (c, tr).

(** Run a handler from the empty trace. *)
Definition run {A} (m : M A) : completion A * list event := m [].

Definition is_email (ev : event) : bool :=
  match ev with
  | EmailSend _ => true
  | _ => false
  end.

(** The email sends of a trace. *)
Definition email_sends (tr : list event) : list event := filter is_email tr.

(** [for (const x of xs) { body }] in a function: the body returns from the
    function ([Some]), moves to the next element ([None], by [continue] or
    by reaching its end) or throws; [after] is the code behind the loop. *)
Fixpoint for_of {A B} (body : A -> completion (option B)) (xs : list A)
  (after : completion B) : completion B :=
  match xs with
  | [] => after
  | x :: rest =>
      match body x with
      | Throw e => Throw e
      | Normal (Some b) => Normal b
      | Normal None => for_of body rest after
      end
  end.

End Effects.

Declare Scope eff_scope.
Delimit Scope eff_scope with eff.
Notation "x <- m ;; k" := (Effects.bind m (fun x => k))
  (at level 61, m at next level, right associativity) : eff_scope.
Notation "m ;;; k" := (Effects.bind m (fun _ => k))
  (at level 61, right associativity) : eff_scope.

(* ===================================================================== *)
(** * The crypto verifier *)
(* ===================================================================== *)

Module VerifyCrypto.

Import JSString JSNumber Regex Http Effects.

(** ** What the handler reads *)

(** An event log of a receipt; [topics] may be absent. *)
Record log : Type := mkLog {
  address : string;
  topics : option (list string);
  data : string
}.

(** A transaction receipt; [logs] may be absent. *)
Record receipt : Type := mkReceipt {
  status : string;
  logs : option (list log)
}.

(** The properties [email] and [txHash] of a parsed body: each is absent
    or a string. *)
Record fields : Type := mkFields {
  email : option string;
  txHash : option string
}.

(** The body after the parsing block of the handler (lines 29 to 43): the
    block threw ([JSON.parse] on text that is no JSON); or [JSON.parse]
    gave [null] (the body text is the literal [null]); or the body is
    another value, parsed here or before the handler, of which line 45
    reads the two properties (a number, a string or a boolean has
    neither). *)
Inductive parsed_body : Type :=
| Unparsable
| ParsedNull
| Parsed (properties : fields).

(** A request: its method and its body. *)
Record request : Type := mkRequest {
  method : string;
  parsed : parsed_body
}.

(** [process.env] *)
Record environment : Type := mkEnv {
  CRYPTO_RECEIVING_WALLET : option string;
  BASE_RPC_URL : option string
}.

(** The outside: what the node answers to [eth_getTransactionReceipt]
    ([data.result], possibly absent, or a throw of [fetch] or
    [response.json]) and how [resend.emails.send] ends. *)
Record world : Type := mkWorld {
  rpc : string -> string -> completion (option receipt);
  send : mail -> completion unit
}.

(** [{ valid: true, amount }] or [{ valid: false, reason }] *)
Inductive transfer : Type :=
| Valid (amount : number)
| Invalid (reason : string).

(** ** Constants *)

Definition USDC_CONTRACT : string := "0x833589fCD6eDb6E08f4c7C32D4f71b54bdA02913".
Definition MIN_AMOUNT : number := of_Z 28000000.
Definition MAX_AMOUNT : number := of_Z 35000000.
Definition DOWNLOAD_URL : string := "https://felixcraft.ai/dl/c5768e3409026bab01bb1649.pdf".
Definition THANK_YOU_URL : string := "https://felixcraft.ai/168a1eb2dd92fd596ac191d4".
Definition TRANSFER_TOPIC : string :=
  "0xddf252ad1be2c89b69c2b068fc378daa952ba7f163c4a11628f55a4df523b3ef".

Definition hex_digit (c : ascii) : bool :=
  in_range 97 102 c || in_range 65 70 c || in_range 48 57 c.

(** [/^0x[a-fA-F0-9]{64}$/] *)
Definition txHash_pattern : regex :=
  Cat (Chr "0") (Cat (Chr "x") (Times 64 (Class hex_digit))).

Definition not_space_or_at (c : ascii) : bool :=
  negb (is_space c || Ascii.eqb c "@").

(** [/^[^\s@]+@[^\s@]+\.[^\s@]+$/] *)
Definition email_pattern : regex :=
  Cat (Plus (Class not_space_or_at))
    (Cat (Chr "@")
       (Cat (Plus (Class not_space_or_at))
          (Cat (Chr ".") (Plus (Class not_space_or_at))))).

Definition cors_headers : list (string * string) :=
  [ ("Access-Control-Allow-Origin", "https://felixcraft.ai");
    ("Access-Control-Allow-Methods", "POST, OPTIONS");
    ("Access-Control-Allow-Headers", "Content-Type") ].

Definition respond (code : Z) (v : json) : response :=
  mkResponse code cors_headers (Some v).

Definition error_body (msg : string) : json := JObject [("error", JString msg)].

Definition success_body : json :=
  JObject [ ("success", JBool true);
            ("downloadUrl", JString DOWNLOAD_URL);
            ("thankYouUrl", JString THANK_YOU_URL);
            ("message", JString "Payment verified! Your download is ready.") ].

Definition slice_of_undefined : error :=
  Error "Cannot read properties of undefined (reading 'slice')".

(** The [TypeError] of [const { email, txHash } = body] on [null]. *)
Definition destructure_of_null : error :=
  Error "Cannot destructure property 'email' of 'body' as it is null.".

Definition buildEmailHTML : string :=
  lines [
    "";
    "    <!DOCTYPE html>";
    "    <html>";
    "    <head>";
    "      <meta charset=" ++ dq ++ "UTF-8" ++ dq ++ ">";
    "      <style>";
    "        body { font-family: -apple-system, BlinkMacSystemFont, 'Segoe UI', sans-serif; line-height: 1.6; color: #333; max-width: 600px; margin: 0 auto; padding: 20px; }";
    "        .header { text-align: center; margin-bottom: 30px; }";
    "        .header h1 { font-size: 24px; color: #c4a35a; margin: 0; }";
    "        .content { background: #f9f9f9; border-radius: 8px; padding: 30px; margin-bottom: 20px; }";
    "        .download-btn { display: inline-block; background: #c4a35a; color: white; padding: 14px 32px; text-decoration: none; border-radius: 6px; font-weight: 600; margin: 20px 0; }";
    "        .footer { text-align: center; font-size: 14px; color: #666; }";
    "        .footer a { color: #c4a35a; text-decoration: none; }";
    "      </style>";
    "    </head>";
    "    <body>";
    "      <div class=" ++ dq ++ "header" ++ dq ++ ">";
    "        <h1>You're in</h1>";
    "      </div>";
    "      <div class=" ++ dq ++ "content" ++ dq ++ ">";
    "        <p>Thanks for grabbing <strong>How to Hire an AI</strong>.</p>";
    "        <p>Click below to download your copy:</p>";
    "        <p style=" ++ dq ++ "text-align: center;" ++ dq ++ ">";
    "          <a href=" ++ dq ++ DOWNLOAD_URL ++ dq ++ " class=" ++ dq ++ "download-btn" ++ dq ++ ">Download PDF</a>";
    "        </p>";
    "        <p>You can also access your thank-you page anytime at:<br>";
    "        <a href=" ++ dq ++ THANK_YOU_URL ++ dq ++ ">" ++ THANK_YOU_URL ++ "</a></p>";
    "      </div>";
    "      <div class=" ++ dq ++ "footer" ++ dq ++ ">";
    "        <p>Questions? <a href=" ++ dq ++ "https://x.com/FelixCraftAI" ++ dq ++ ">@FelixCraftAI</a> " ++ middot ++ " <a href=" ++ dq ++ "mailto:felix@masinov.co" ++ dq ++ ">felix@masinov.co</a></p>";
    "      </div>";
    "    </body>";
    "    </html>";
    "  "
  ].

Definition from_address : string := "Felix Craft <felix@masinov.co>".

Definition email_subject : string :=
  "Your " ++ dq ++ "How to Hire an AI" ++ dq ++ " download is ready".

(** The value of a field that was found truthy. *)
Definition str (v : option string) : string :=
  match v with Some s => s | None => "" end.

Section Handler.

Variable env : environment.
Variable w : world.

(** [(process.env.CRYPTO_RECEIVING_WALLET || '').toLowerCase()] *)
Definition RECEIVING_WALLET : string :=
  toLowerCase (match CRYPTO_RECEIVING_WALLET env with
               | Some s => if truthy s then s else ""
               | None => ""
               end).

(** [process.env.BASE_RPC_URL || 'https://mainnet.base.org'] *)
Definition rpcUrl : string :=
  match BASE_RPC_URL env with
  | Some s => if truthy s then s else "https://mainnet.base.org"
  | None => "https://mainnet.base.org"
  end.

Definition fetchTxReceipt (txHash : string) : M (option receipt) :=
  (emit (RpcPost rpcUrl "eth_getTransactionReceipt" [txHash]) ;;;
   lift (rpc w rpcUrl txHash))%eff.

(** One turn of the loop of [verifyUSDCTransfer]. *)
Definition verify_log (l : log) : completion (option transfer) :=
  (* Check it's from the USDC contract *)
  if negb (String.eqb (toLowerCase (address l)) (toLowerCase USDC_CONTRACT))
  then Normal None
  (* Check it's a Transfer event *)
  else if match topics l with
          | None => true
          | Some ts =>
              match nth_error ts 0 with
              | Some t0 => negb (String.eqb t0 TRANSFER_TOPIC)
              | None => true
              end
          end
  then Normal None
  else
    (* Topic[2] is the 'to' address (padded to 32 bytes) *)
    match nth_error (match topics l with Some ts => ts | None => [] end) 2 with
    | None => Throw slice_of_undefined
    | Some t2 =>
        let toAddress := "0x" ++ toLowerCase (slice t2 26) in
        (* Check the receiving wallet if configured *)
        if truthy RECEIVING_WALLET && negb (String.eqb toAddress RECEIVING_WALLET)
        then Normal None
        else
          (* Data contains the amount (uint256) *)
          let amount := parseInt (data l) 16 in
          if ge amount MIN_AMOUNT && le amount MAX_AMOUNT
          then Normal (Some (Valid (div amount (of_Z 1000000))))
          else if lt amount MIN_AMOUNT
          then Normal (Some (Invalid
                 ("Payment amount ($" ++ toFixed (div amount (of_Z 1000000)) 2
                  ++ ") is below the required amount.")))
          else Normal None
    end.

Definition no_transfer_reason : string :=
  "No valid USDC transfer found in this transaction. Please check the transaction hash.".

Definition verifyUSDCTransfer (r : receipt) : completion transfer :=
  for_of verify_log
    (match logs r with Some ls => ls | None => [] end)
    (Normal (Invalid no_transfer_reason)).

Definition handler (req : request) : M response :=
  if String.eqb (method req) "OPTIONS"
  then ret (mkResponse 200 cors_headers None)
  else if negb (String.eqb (method req) "POST")
  then ret (respond 405 (error_body "Method not allowed"))
  else
    match parsed req with
    | Unparsable => ret (respond 400 (error_body "Invalid JSON body"))
    (* const { email, txHash } = body; behind the try block *)
    | ParsedNull => throw destructure_of_null
    | Parsed body =>
        if negb (truthy_opt (email body)) || negb (truthy_opt (txHash body))
        then ret (respond 400 (error_body "Email and transaction hash are required"))
        (* Basic validation *)
        else if negb (test txHash_pattern (str (txHash body)))
        then ret (respond 400 (error_body "Invalid transaction hash format"))
        else if negb (test email_pattern (str (email body)))
        then ret (respond 400 (error_body "Invalid email format"))
        else
          try_catch
            (txReceipt <- fetchTxReceipt (str (txHash body)) ;;
             match txReceipt with
             | None =>
                 ret (respond 400 (error_body
                   "Transaction not found or failed. Please check the hash and try again."))
             | Some r =>
                 if negb (String.eqb (status r) "0x1")
                 then
                   ret (respond 400 (error_body
                     "Transaction not found or failed. Please check the hash and try again."))
                 else
                   tr <- lift (verifyUSDCTransfer r) ;;
                   match tr with
                   | Invalid reason => ret (respond 400 (error_body reason))
                   | Valid amount =>
                       (* Transaction verified: send the download email *)
                       try_catch
                         (let m := mkMail from_address (str (email body))
                                     email_subject buildEmailHTML in
                          emit (EmailSend m) ;;;
                          lift (send w m) ;;;
                          emit (ConsoleLog "Crypto purchase verified and email sent:"))
                         (fun emailErr =>
                            emit (ConsoleError "Email send failed (returning link anyway):")) ;;;
                       (* Return success with download URL regardless of email success *)
                       ret (respond 200 success_body)
                   end
             end)%eff
            (fun err =>
               (emit (ConsoleError "Verification error:") ;;;
                ret (respond 500 (error_body
                  "Verification failed. Please email felix@masinov.co with your transaction hash.")))%eff)
    end.

End Handler.

End VerifyCrypto.

(* ===================================================================== *)
(** * The card webhook handler *)
(* ===================================================================== *)

Module StripeWebhook.

Import JSString JSNumber Http Effects.

(** [session.customer_details] *)
Record customer_details : Type := mkDetails {
  details_email : option string
}.

(** [session.amount_total] as the payload holds it: absent, [null], a
    number, or a value of another type (a string, a boolean, an array, an
    object), which is given with the Number that [ToNumber] makes of it. *)
Inductive amount : Type :=
| Absent
| Null
| Num (x : number)
| Other (as_number : number).

(** A checkout session. *)
Record session : Type := mkSession {
  id : string;
  amount_total : amount;
  customer_details_of : option customer_details;
  customer_email : option string
}.

(** A verified event: [event.type] and [event.data.object]. *)
Record stripe_event : Type := mkEvent {
  type : string;
  object : session
}.

(** A request: its method, its raw body and its [stripe-signature] header. *)
Record request : Type := mkRequest {
  method : string;
  rawBody : string;
  signature : option string
}.

(** The outside: [stripe.webhooks.constructEvent] on the raw body, the
    signature header and the configured secret (it returns the event or
    throws), and how [resend.emails.send] ends. *)
Record world : Type := mkWorld {
  constructEvent : string -> option string -> completion stripe_event;
  send : mail -> completion unit
}.

Definition respond (code : Z) (v : json) : response :=
  mkResponse code [] (Some v).

(** [ToNumber] of [amount_total], as [<] and [>] against a number take
    it: [NaN] when it is absent, 0 for [null]. *)
Definition to_number (a : amount) : number :=
  match a with
  | Absent => NaN
  | Null => of_Z 0
  | Num x => x
  | Other x => x
  end.

(** [a || b] on fields that are absent or strings. *)
Definition or_else (a b : option string) : option string :=
  if truthy_opt a then a else b.

(** [session.customer_details?.email] *)
Definition details_email_of (s : session) : option string :=
  match customer_details_of s with
  | Some d => details_email d
  | None => None
  end.

Definition email_html : string :=
  lines [
    "";
    "          <!DOCTYPE html>";
    "          <html>";
    "          <head>";
    "            <meta charset=" ++ dq ++ "UTF-8" ++ dq ++ ">";
    "            <style>";
    "              body { font-family: -apple-system, BlinkMacSystemFont, 'Segoe UI', sans-serif; line-height: 1.6; color: #333; max-width: 600px; margin: 0 auto; padding: 20px; }";
    "              .header { text-align: center; margin-bottom: 30px; }";
    "              .header h1 { font-size: 24px; color: #c4a35a; margin: 0; }";
    "              .content { background: #f9f9f9; border-radius: 8px; padding: 30px; margin-bottom: 20px; }";
    "              .download-btn { display: inline-block; background: #c4a35a; color: white; padding: 14px 32px; text-decoration: none; border-radius: 6px; font-weight: 600; margin: 20px 0; }";
    "              .footer { text-align: center; font-size: 14px; color: #666; }";
    "              .footer a { color: #c4a35a; text-decoration: none; }";
    "            </style>";
    "          </head>";
    "          <body>";
    "            <div class=" ++ dq ++ "header" ++ dq ++ ">";
    "              <h1>You're in</h1>";
    "            </div>";
    "            <div class=" ++ dq ++ "content" ++ dq ++ ">";
    "              <p>Thanks for grabbing <strong>How to Hire an AI</strong>.</p>";
    "              <p>Click below to download your copy:</p>";
    "              <p style=" ++ dq ++ "text-align: center;" ++ dq ++ ">";
    "                <a href=" ++ dq ++ "https://felixcraft.ai/dl/c5768e3409026bab01bb1649.pdf" ++ dq ++ " class=" ++ dq ++ "download-btn" ++ dq ++ ">Download PDF</a>";
    "              </p>";
    "              <p>You can also access your thank-you page anytime at:<br>";
    "              <a href=" ++ dq ++ "https://felixcraft.ai/168a1eb2dd92fd596ac191d4" ++ dq ++ ">https://felixcraft.ai/168a1eb2dd92fd596ac191d4</a></p>";
    "            </div>";
    "            <div class=" ++ dq ++ "footer" ++ dq ++ ">";
    "              <p>Questions? <a href=" ++ dq ++ "https://x.com/FelixCraftAI" ++ dq ++ ">@FelixCraftAI</a> " ++ middot ++ " <a href=" ++ dq ++ "mailto:felix@masinov.co" ++ dq ++ ">felix@masinov.co</a></p>";
    "            </div>";
    "          </body>";
    "          </html>";
    "        "
  ].

Definition from_address : string := "Felix Craft <felix@masinov.co>".

Definition email_subject : string :=
  "Your " ++ dq ++ "How to Hire an AI" ++ dq ++ " download is ready".

Section Handler.

Variable w : world.

Definition handler (req : request) : M response :=
  if negb (String.eqb (method req) "POST")
  then ret (respond 405 (JObject [("error", JString "Method not allowed")]))
  else
    try_catch
      (event <- lift (constructEvent w (rawBody req) (signature req)) ;;
       (* Handle checkout.session.completed event *)
       if String.eqb (type event) "checkout.session.completed"
       then
         let session := object event in
         emit (ConsoleLog "Checkout session:") ;;;
         (* Only process felixcraft.ai purchases ($29 = 2900 cents) *)
         if lt (to_number (amount_total session)) (of_Z 2800)
            || gt (to_number (amount_total session)) (of_Z 3100)
         then
           emit (ConsoleLog "Skipping non-felixcraft purchase:") ;;;
           ret (respond 200 (JObject [("received", JBool true); ("skipped", JBool true)]))
         else
           let customerEmail :=
             or_else (details_email_of session) (customer_email session) in
           if negb (truthy_opt customerEmail)
           then
             emit (ConsoleError "No customer email found for session:") ;;;
             ret (respond 400 (JObject [("error", JString "No customer email")]))
           else
             try_catch
               (let m := mkMail from_address (VerifyCrypto.str customerEmail)
                           email_subject email_html in
                emit (EmailSend m) ;;;
                lift (send w m) ;;;
                emit (ConsoleLog "Download email sent to:") ;;;
                ret (respond 200 (JObject [("received", JBool true); ("emailSent", JBool true)])))
               (fun error =>
                  emit (ConsoleError "Failed to send email:") ;;;
                  ret (respond 500 (JObject [("error", JString "Failed to send email");
                                             ("details", JString (message error))])))
       else
         (* Return 200 for other event types *)
         ret (respond 200 (JObject [("received", JBool true)])))%eff
      (fun err =>
         (emit (ConsoleError "Webhook signature verification failed:") ;;;
          ret (respond 400 (JObject [("error", JString ("Webhook Error: " ++ message err))])))%eff).

End Handler.

End StripeWebhook.

(* ===================================================================== *)
(** * The vocabulary of the specification *)
(* ===================================================================== *)

(** The checks of the log scan and the shapes of requests, in the words of
    the specification; the theorems below relate them to the code. *)
Module CryptoChecks.

Import JSString JSNumber Regex Http Effects VerifyCrypto.

(** Two addresses are equal without regard to case. *)
Definition same_ignoring_case (a b : string) : bool :=
  String.eqb (toLowerCase a) (toLowerCase b).

(** (a) the emitter is the token contract. *)
Definition emitter_is_token (l : log) : bool :=
  same_ignoring_case (address l) USDC_CONTRACT.

(** (b) the first topic is the Transfer signature. *)
Definition first_topic_is_transfer (l : log) : bool :=
  match topics l with
  | Some (t0 :: _) => String.eqb t0 TRANSFER_TOPIC
  | _ => false
  end.

Definition third_topic (l : log) : option string :=
  match topics l with
  | Some (_ :: _ :: t2 :: _) => Some t2
  | _ => None
  end.

(** The low 20 bytes of a 32-byte word written as [0x] and 64 hex digits:
    its last 40 digits. *)
Definition low_20_bytes (word : string) : string :=
  substring (String.length word - 40) 40 word.

(** The destination of a transfer, as the code derives it from the third
    topic; for a 32-byte word these are its low 20 bytes. *)
Definition destination (topic : string) : string := "0x" ++ slice topic 26.

(** The configured receiving wallet, empty when none is configured. *)
Definition wallet (env : environment) : string :=
  str (CRYPTO_RECEIVING_WALLET env).

Definition wallet_configured (env : environment) : bool := truthy (wallet env).

(** (c) when a wallet is configured, the destination is that wallet. *)
Definition destination_is_wallet (env : environment) (l : log) : bool :=
  match third_topic l with
  | Some t2 => same_ignoring_case (destination t2) (wallet env)
  | None => false
  end.

(** The log passes all three checks (and has a third topic to take the
    destination from). *)
Definition matching (env : environment) (l : log) : bool :=
  emitter_is_token l && first_topic_is_transfer l &&
  match third_topic l with
  | Some _ => negb (wallet_configured env) || destination_is_wallet env l
  | None => false
  end.

(** The log fails one of the three checks. *)
Definition rejected (env : environment) (l : log) : bool :=
  negb (emitter_is_token l) || negb (first_topic_is_transfer l) ||
  match third_topic l with
  | Some _ => wallet_configured env && negb (destination_is_wallet env l)
  | None => false
  end.

(** A Transfer log of the token contract with fewer than three topics. *)
Definition lacks_destination (l : log) : bool :=
  emitter_is_token l && first_topic_is_transfer l &&
  match third_topic l with
  | Some _ => false
  | None => true
  end.

(** The amount a log's data decodes to, as the Number the code holds. *)
Definition amount_of (l : log) : number := parseInt (data l) 16.

(** The integer a log's data decodes to; [None] when the data holds no
    hex digit. *)
Definition decoded (l : log) : option Z :=
  option_map snd (parse_integer (data l) 16).

(** The decoded amount lies within [28,000,000, 35,000,000], strictly
    below 28,000,000, strictly above 35,000,000. *)
Definition within_band (l : log) : bool :=
  match decoded l with
  | Some n => (28000000 <=? n) && (n <=? 35000000)
  | None => false
  end.

Definition below_minimum (l : log) : bool :=
  match decoded l with
  | Some n => n <? 28000000
  | None => false
  end.

Definition above_maximum (l : log) : bool :=
  match decoded l with
  | Some n => 35000000 <? n
  | None => false
  end.

Definition not_a_number (l : log) : bool :=
  match decoded l with
  | Some _ => false
  | None => true
  end.

(** The scan moves past the log: it fails a check, or it passes them with
    an amount above the maximum (or with data that is no number). *)
Definition passed_over (env : environment) (l : log) : bool :=
  rejected env l ||
  (matching env l && (above_maximum l || not_a_number l)).

Definition below_reason (a : number) : string :=
  "Payment amount ($" ++ toFixed (div a (of_Z 1000000)) 2
  ++ ") is below the required amount.".

Definition not_found_reason : string :=
  "Transaction not found or failed. Please check the hash and try again.".

Definition server_error_reason : string :=
  "Verification failed. Please email felix@masinov.co with your transaction hash.".

(** Every character of the string satisfies [p]. *)
Fixpoint all_chars (p : ascii -> bool) (s : string) : bool :=
  match s with
  | EmptyString => true
  | String c r => p c && all_chars p r
  end.

(** The string is [0x] followed by exactly 64 hex digits. *)
Definition is_32_byte_hex (h : string) : bool :=
  match h with
  | String "0" (String "x" d) =>
      Nat.eqb (String.length d) 64 && all_chars hex_digit d
  | _ => false
  end.

(** A part of a basic address: not empty, without white space and
    without an at sign. *)
Definition address_part (s : string) : Prop :=
  s <> "" /\ all_chars not_space_or_at s = true.

(** The string is [local@domain.tld], each of the three a part. *)
Definition is_basic_address (e : string) : Prop :=
  exists l d t : string,
    e = (l ++ "@" ++ d ++ "." ++ t)%string /\
    address_part l /\ address_part d /\ address_part t.

(** A POST request whose body carries an email and a transaction hash that
    pass the three validations. *)
Definition accepted (req : request) (e h : string) : Prop :=
  method req = "POST" /\
  parsed req = Parsed (mkFields (Some e) (Some h)) /\
  test txHash_pattern h = true /\
  test email_pattern e = true.

(** The delivery email for a buyer. *)
Definition delivery_mail (e : string) : mail :=
  mkMail from_address e email_subject buildEmailHTML.

(** The JSON-RPC call for a transaction hash. *)
Definition rpc_call (env : environment) (h : string) : event :=
  RpcPost (rpcUrl env) "eth_getTransactionReceipt" [h].

End CryptoChecks.

Module CardChecks.

Import JSString Http Effects StripeWebhook.

(** The request is a POST whose signature verifies to a checkout-completed
    event for the session. *)
Definition verified_checkout (w : world) (req : request) (s : session) : Prop :=
  method req = "POST" /\
  constructEvent w (rawBody req) (signature req)
  = Normal (mkEvent "checkout.session.completed" s).

(** The buyer's email: the confirmed one, else the one given before
    checkout. *)
Definition buyer_email (s : session) : option string :=
  or_else (details_email_of s) (customer_email s).

Definition delivery_mail (e : string) : mail :=
  mkMail from_address e email_subject email_html.

End CardChecks.

(* ===================================================================== *)
(** * Sample inputs *)
(* ===================================================================== *)

(** Concrete requests, receipts and outside worlds on which the handlers
    are evaluated below. *)
Module Samples.

Import JSString JSNumber Http Effects.

Module Crypto.

Import VerifyCrypto.

Definition env : environment :=
  mkEnv (Some "0xAbCdEf0000000000000000000000000000000001") None.

(** No receiving wallet configured. *)
Definition env_open : environment := mkEnv None None.

(** An address as a 32-byte topic. *)
Definition word (a : string) : string := "0x000000000000000000000000" ++ a.

Definition sender : string := word "1111111111111111111111111111111111111111".
Definition to_wallet : string := word "ABCDEF0000000000000000000000000000000001".
Definition to_other : string := word "2222222222222222222222222222222222222222".

(** 29,000,000, 27,000,000 and 50,000,000 as 32-byte data. *)
Definition data_29 : string :=
  "0x0000000000000000000000000000000000000000000000000000000001ba8140".
Definition data_27 : string :=
  "0x00000000000000000000000000000000000000000000000000000000019bfcc0".
Definition data_50 : string :=
  "0x0000000000000000000000000000000000000000000000000000000002faf080".

(** A Transfer of the token to the wallet. *)
Definition transfer_log (d : string) : log :=
  mkLog "0x833589fcd6edb6e08f4c7c32d4f71b54bda02913"
    (Some [TRANSFER_TOPIC; sender; to_wallet]) d.

(** A Transfer of the token to someone else. *)
Definition elsewhere_log (d : string) : log :=
  mkLog "0x833589fcd6edb6e08f4c7c32d4f71b54bda02913"
    (Some [TRANSFER_TOPIC; sender; to_other]) d.

(** A log of another contract. *)
Definition foreign_log : log :=
  mkLog "0x4200000000000000000000000000000000000006"
    (Some [TRANSFER_TOPIC; sender; to_wallet]) data_29.

(** A Transfer log of the token with two topics only. *)
Definition short_log : log :=
  mkLog USDC_CONTRACT (Some [TRANSFER_TOPIC; sender]) data_29.

Definition receipt_of (ls : list log) : receipt := mkReceipt "0x1" (Some ls).

Definition tx : string :=
  "0x9f3c2b1a00112233445566778899aabbccddeeff00112233445566778899AABB".

Definition buyer : string := "buyer@example.com".

Definition post (e h : option string) : request :=
  mkRequest "POST" (Parsed (mkFields e h)).

Definition request_ok : request := post (Some buyer) (Some tx).

(** A node that answers every lookup with [answer], and an email service
    that ends every send with [outcome]. *)
Definition world_of (answer : option receipt) (outcome : completion unit) : world :=
  mkWorld (fun _ _ => Normal answer) (fun _ => outcome).

Definition mail_down : completion unit := Throw (Error "service unavailable").

End Crypto.

Module Card.

Import StripeWebhook.

(** An amount of so many minor units. *)
Definition cents (a : Z) : amount := Num (JSNumber.of_Z a).

Definition checkout (a : amount) (e : option string) : session :=
  mkSession "cs_test_1" a (Some (mkDetails e)) None.

Definition request_ok : request :=
  mkRequest "POST" "{}" (Some "t=1,v1=00").

(** A signature check that verifies to a checkout-completed event for the
    session, and an email service that ends every send with [outcome]. *)
Definition world_of (s : session) (outcome : completion unit) : world :=
  mkWorld (fun _ _ => Normal (mkEvent "checkout.session.completed" s))
          (fun _ => outcome).

Definition mail_down : completion unit := Throw (Error "service unavailable").

End Card.

End Samples.

(* ===================================================================== *)
(** * Further vocabulary and sample inputs *)
(* ===================================================================== *)

(** What the properties behind the claims speak of: the calls a handler
    makes to the outside, the shape of a validated input, and the card
    handler with its [try] block as the source scopes it. *)
Module MoreChecks.

Import JSString JSNumber Regex Http Effects.

(** The JSON-RPC POST and the email send, without the console output. *)
Definition is_outbound (ev : event) : bool :=
  match ev with
  | RpcPost _ _ _ => true
  | EmailSend _ => true
  | _ => false
  end.

Definition outbound (tr : list event) : list event := filter is_outbound tr.

(** How often a character occurs in a string. *)
Fixpoint count_char (c : ascii) (s : string) : nat :=
  match s with
  | EmptyString => O
  | String c' r => if Ascii.eqb c c' then S (count_char c r) else count_char c r
  end.

(** The string holds no white space. *)
Definition no_white_space (s : string) : bool :=
  CryptoChecks.all_chars (fun c => negb (is_space c)) s.

(** The string starts with [0x]. *)
Definition starts_with_0x (s : string) : bool :=
  match s with
  | String "0" (String "x" _) => true
  | _ => false
  end.

(** The statuses the two handlers answer with. *)
Definition known_status (code : Z) : bool :=
  (code =? 200) || (code =? 400) || (code =? 405) || (code =? 500).

(** The request is a POST whose body parsed to [null]. *)
Definition null_post (req : VerifyCrypto.request) : Prop :=
  VerifyCrypto.method req = "POST" /\ VerifyCrypto.parsed req = VerifyCrypto.ParsedNull.

(** No Transfer log of the token in the receipt lacks its third topic. *)
Definition transfers_well_formed (r : VerifyCrypto.receipt) : Prop :=
  forall ls, VerifyCrypto.logs r = Some ls ->
             Forall (fun x => CryptoChecks.lacks_destination x = false) ls.


(** The test of line 234 on the amount of a session: the purchase is
    taken for one of another product. *)
Definition out_of_band (a : StripeWebhook.amount) : bool :=
  JSNumber.lt (StripeWebhook.to_number a) (JSNumber.of_Z 2800)
  || JSNumber.gt (StripeWebhook.to_number a) (JSNumber.of_Z 3100).

Section CardAsWritten.

Import JSNumber StripeWebhook.

Variable w : world.

(** The code of the card handler behind its [try] block (lines 225 to
    298): it starts from the event the signature check returned. *)
Definition after_signature (event : stripe_event) : M response :=
  (if String.eqb (type event) "checkout.session.completed"
   then
     let session := object event in
     emit (ConsoleLog "Checkout session:") ;;;
     if lt (to_number (amount_total session)) (of_Z 2800)
        || gt (to_number (amount_total session)) (of_Z 3100)
     then
       emit (ConsoleLog "Skipping non-felixcraft purchase:") ;;;
       ret (respond 200 (JObject [("received", JBool true); ("skipped", JBool true)]))
     else
       let customerEmail :=
         or_else (details_email_of session) (customer_email session) in
       if negb (truthy_opt customerEmail)
       then
         emit (ConsoleError "No customer email found for session:") ;;;
         ret (respond 400 (JObject [("error", JString "No customer email")]))
       else
         try_catch
           (let m := mkMail from_address (VerifyCrypto.str customerEmail)
                       email_subject email_html in
            emit (EmailSend m) ;;;
            lift (send w m) ;;;
            emit (ConsoleLog "Download email sent to:") ;;;
            ret (respond 200 (JObject [("received", JBool true); ("emailSent", JBool true)])))
           (fun error =>
              emit (ConsoleError "Failed to send email:") ;;;
              ret (respond 500 (JObject [("error", JString "Failed to send email");
                                         ("details", JString (message error))])))
   else
     ret (respond 200 (JObject [("received", JBool true)])))%eff.

(** The card handler with the [try] block around [buffer] and
    [constructEvent] alone (lines 217 to 223), as the source scopes it:
    the block yields the event or the 400 answer of its [catch]. *)
Definition handler_as_written (req : request) : M response :=
  if negb (String.eqb (method req) "POST")
  then ret (respond 405 (JObject [("error", JString "Method not allowed")]))
  else
    (checked <-
       try_catch
         (event <- lift (constructEvent w (rawBody req) (signature req)) ;;
          ret (inl event))
         (fun err =>
            emit (ConsoleError "Webhook signature verification failed:") ;;;
            ret (inr (respond 400
                   (JObject [("error", JString ("Webhook Error: " ++ message err))])))) ;;
     match checked with
     | inl event => after_signature event
     | inr answer => ret answer
     end)%eff.

End CardAsWritten.

End MoreChecks.

Module MoreSamples.

Import JSString JSNumber Http Effects.

Module Crypto.

Import VerifyCrypto Samples.Crypto.

(** A wallet configured without its [0x]. *)
Definition env_no_prefix : environment :=
  mkEnv (Some "AbCdEf0000000000000000000000000000000001") None.

(** An empty wallet and an RPC URL of one's own. *)
Definition env_own_node : environment :=
  mkEnv (Some "") (Some "https://rpc.example.org").

(** 2^255 + 1 as 32-byte data: far above 2^53. *)
Definition data_huge : string :=
  "0x8000000000000000000000000000000000000000000000000000000000000001".

(** Data without a digit. *)
Definition data_empty : string := "0x".

(** A node that cannot be reached. *)
Definition world_down : world :=
  mkWorld (fun _ _ => Throw (Error "fetch failed")) (fun _ => Normal tt).

End Crypto.

Module Card.

Import StripeWebhook Samples.Card.

(** A signature that does not verify. *)
Definition world_forged : world :=
  mkWorld (fun _ _ => Throw (Error "No signatures found matching the expected signature for payload"))
          (fun _ => Normal tt).

(** A verified event of another kind. *)
Definition world_other (s : session) : world :=
  mkWorld (fun _ _ => Normal (mkEvent "payment_intent.succeeded" s))
          (fun _ => Normal tt).

(** A session with both emails, and one whose confirmed email is empty. *)
Definition both_emails : session :=
  mkSession "cs_test_2" (cents 2900)
    (Some (mkDetails (Some "confirmed@example.com"))) (Some "typed@example.com").

Definition typed_only : session :=
  mkSession "cs_test_3" (cents 2900) (Some (mkDetails (Some ""))) (Some "typed@example.com").

End Card.

End MoreSamples.

(* ===================================================================== *)
(** * The matcher decides the language of a pattern *)
(* ===================================================================== *)

Module RegexFacts.

Import Regex.

Lemma append_empty_inv (s1 s2 : string) :
  (s1 ++ s2)%string = "" -> s1 = "" /\ s2 = "".
Proof.
  destruct s1; simpl; intros H; [split; [reflexivity | exact H] | discriminate H].
Qed.

Lemma Cat_inv (r1 r2 : regex) (s : string) :
  Matches (Cat r1 r2) s ->
  exists s1 s2, s = (s1 ++ s2)%string /\ Matches r1 s1 /\ Matches r2 s2.
Proof.
  intros H. inversion H; subst. eauto.
Qed.

Lemma Alt_inv (r1 r2 : regex) (s : string) :
  Matches (Alt r1 r2) s -> Matches r1 s \/ Matches r2 s.
Proof.
  intros H. inversion H; subst; auto.
Qed.

Lemma nullable_Matches (r : regex) : nullable r = true <-> Matches r "".
Proof.
  induction r; simpl.
  - split; [discriminate | intros H; inversion H].
  - split; [intros _; constructor | reflexivity].
  - split; [discriminate | intros H; inversion H].
  - rewrite andb_true_iff, IHr1, IHr2. split.
    + intros [H1 H2]. change "" with ("" ++ "")%string. now constructor.
    + intros H. apply Cat_inv in H. destruct H as (s1 & s2 & E & H1 & H2).
      symmetry in E. apply append_empty_inv in E. destruct E; subst. now split.
  - rewrite orb_true_iff, IHr1, IHr2. split.
    + intros [H | H]; [now apply MAltL | now apply MAltR].
    + apply Alt_inv.
  - split; [intros _; constructor | reflexivity].
Qed.

(** A non-empty word of [r*] starts with a non-empty word of [r]. *)
Lemma Star_cons_inv (r : regex) (c : ascii) (s : string) :
  Matches (Star r) (String c s) ->
  exists s1 s2, s = (s1 ++ s2)%string /\
                Matches r (String c s1) /\ Matches (Star r) s2.
Proof.
  intros H. remember (Star r) as r' eqn:Er. remember (String c s) as t eqn:Et.
  revert s Et. induction H; intros s' Et; try discriminate Er.
  - discriminate Et.
  - injection Er as ->. destruct s1 as [| c1 s1'].
    + simpl in Et. apply IHMatches2; [reflexivity | exact Et].
    + simpl in Et. injection Et as -> <-. now exists s1', s2.
Qed.

Lemma Cat_cons (r1 r2 : regex) (c : ascii) (s1 s2 : string) :
  Matches r1 (String c s1) -> Matches r2 s2 ->
  Matches (Cat r1 r2) (String c (s1 ++ s2)).
Proof.
  intros H1 H2.
  change (String c (s1 ++ s2)) with (String c s1 ++ s2)%string.
  now constructor.
Qed.

Lemma deriv_Matches (r : regex) (c : ascii) (s : string) :
  Matches (deriv c r) s <-> Matches r (String c s).
Proof.
  revert s. induction r; intros s; simpl.
  - split; intros H; inversion H.
  - split; intros H; inversion H.
  - destruct (p c) eqn:Ep; split; intros H.
    + inversion H; subst. now constructor.
    + inversion H; subst. constructor.
    + inversion H.
    + inversion H; subst. congruence.
  - assert (Hcat : Matches (Cat (deriv c r1) r2) s ->
                   Matches (Cat r1 r2) (String c s)).
    { intros H. apply Cat_inv in H. destruct H as (s1 & s2 & -> & H1 & H2).
      apply Cat_cons; [now apply IHr1 | exact H2]. }
    assert (Hinv : Matches (Cat r1 r2) (String c s) ->
                   Matches (Cat (deriv c r1) r2) s \/
                   (Matches r1 "" /\ Matches r2 (String c s))).
    { intros H. apply Cat_inv in H. destruct H as (s1 & s2 & E & H1 & H2).
      destruct s1 as [| c1 s1'].
      - right. simpl in E. subst s2. now split.
      - left. simpl in E. injection E as -> ->.
        constructor; [now apply IHr1 | exact H2]. }
    destruct (nullable r1) eqn:En; split; intros H.
    + apply Alt_inv in H. destruct H as [H | H]; [now apply Hcat |].
      change (String c s) with ("" ++ String c s)%string.
      constructor; [now apply nullable_Matches | now apply IHr2].
    + destruct (Hinv H) as [H' | [_ H']]; [now apply MAltL |].
      apply MAltR. now apply IHr2.
    + now apply Hcat.
    + destruct (Hinv H) as [H' | [H' _]]; [exact H' |].
      apply nullable_Matches in H'. congruence.
  - split; intros H.
    + apply Alt_inv in H. destruct H as [H | H];
        [apply MAltL; now apply IHr1 | apply MAltR; now apply IHr2].
    + apply Alt_inv in H. destruct H as [H | H];
        [apply MAltL; now apply IHr1 | apply MAltR; now apply IHr2].
  - split; intros H.
    + apply Cat_inv in H. destruct H as (s1 & s2 & -> & H1 & H2).
      change (String c (s1 ++ s2)) with (String c s1 ++ s2)%string.
      apply MStarS; [now apply IHr | exact H2].
    + apply Star_cons_inv in H. destruct H as (s1 & s2 & -> & H1 & H2).
      constructor; [now apply IHr | exact H2].
Qed.

(** [test] accepts exactly the strings of the pattern's language. *)
Lemma test_Matches (r : regex) (s : string) : test r s = true <-> Matches r s.
Proof.
  revert r. induction s as [| c s IH]; intros r; simpl.
  - apply nullable_Matches.
  - rewrite IH. apply deriv_Matches.
Qed.

Lemma Matches_Class (p : ascii -> bool) (s : string) :
  Matches (Class p) s <-> exists c, s = String c "" /\ p c = true.
Proof.
  split.
  - intros H. inversion H; subst. eauto.
  - intros (c & -> & H). now constructor.
Qed.

Lemma Matches_Class_Cat (p : ascii -> bool) (r : regex) (s : string) :
  Matches (Cat (Class p) r) s <->
  exists c s', s = String c s' /\ p c = true /\ Matches r s'.
Proof.
  split.
  - intros H. apply Cat_inv in H. destruct H as (s1 & s2 & -> & H1 & H2).
    apply Matches_Class in H1. destruct H1 as (c & -> & Hc).
    exists c, s2. now repeat split.
  - intros (c & s' & -> & Hc & H).
    change (String c s') with (String c "" ++ s')%string.
    constructor; [now constructor | exact H].
Qed.

Lemma Matches_Chr_Cat (a : ascii) (r : regex) (s : string) :
  Matches (Cat (Chr a) r) s <-> exists s', s = String a s' /\ Matches r s'.
Proof.
  unfold Chr. rewrite Matches_Class_Cat. split.
  - intros (c & s' & -> & Hc & H). apply Ascii.eqb_eq in Hc. subst c. eauto.
  - intros (s' & -> & H). exists a, s'. repeat split; [apply Ascii.eqb_refl | exact H].
Qed.

Lemma Matches_Eps (s : string) : Matches Eps s <-> s = "".
Proof.
  split; [intros H; now inversion H | intros ->; constructor].
Qed.

Lemma Matches_Times_Class (n : nat) (p : ascii -> bool) (s : string) :
  Matches (Times n (Class p)) s <->
  String.length s = n /\ CryptoChecks.all_chars p s = true.
Proof.
  revert s. induction n as [| n IH]; intros s; cbn [Times].
  - rewrite Matches_Eps. split.
    + intros ->. now split.
    + intros [H _]. now destruct s.
  - rewrite Matches_Class_Cat. split.
    + intros (c & s' & -> & Hc & H). apply IH in H. destruct H as [Hl Ha].
      cbn. now rewrite Hl, Hc, Ha.
    + intros [Hl Ha]. destruct s as [| c s']; [discriminate Hl |].
      cbn in Hl, Ha. apply andb_true_iff in Ha. destruct Ha as [Hc Ha].
      exists c, s'. repeat split; [exact Hc |]. apply IH. split; congruence.
Qed.

Lemma Matches_Star_Class (p : ascii -> bool) (s : string) :
  Matches (Star (Class p)) s <-> CryptoChecks.all_chars p s = true.
Proof.
  split.
  - intros H. remember (Star (Class p)) as r eqn:Er.
    induction H; try discriminate Er; [reflexivity |].
    injection Er as ->. apply Matches_Class in H. destruct H as (c & -> & Hc).
    cbn. rewrite Hc. now apply IHMatches2.
  - induction s as [| c s IH]; intros H; [constructor |].
    cbn in H. apply andb_true_iff in H. destruct H as [Hc Ha].
    change (String c s) with (String c "" ++ s)%string.
    apply MStarS; [now constructor | now apply IH].
Qed.

Lemma Matches_Plus_Class_Cat (p : ascii -> bool) (r : regex) (s : string) :
  Matches (Cat (Plus (Class p)) r) s <->
  exists s1 s2, s = (s1 ++ s2)%string /\
                (s1 <> "" /\ CryptoChecks.all_chars p s1 = true) /\ Matches r s2.
Proof.
  split.
  - intros H. apply Cat_inv in H. destruct H as (s1 & s2 & -> & H1 & H2).
    exists s1, s2. repeat split; try exact H2.
    + unfold Plus in H1. apply Matches_Class_Cat in H1.
      destruct H1 as (c & s' & -> & _ & _). discriminate.
    + unfold Plus in H1. apply Matches_Class_Cat in H1.
      destruct H1 as (c & s' & -> & Hc & H1). apply Matches_Star_Class in H1.
      cbn. now rewrite Hc, H1.
  - intros (s1 & s2 & -> & [Hne Ha] & H2). constructor; [| exact H2].
    destruct s1 as [| c s1]; [congruence |].
    cbn in Ha. apply andb_true_iff in Ha. destruct Ha as [Hc Ha].
    unfold Plus. apply Matches_Class_Cat. exists c, s1.
    repeat split; [exact Hc |]. now apply Matches_Star_Class.
Qed.

Lemma Matches_Plus_Class (p : ascii -> bool) (s : string) :
  Matches (Plus (Class p)) s <-> s <> "" /\ CryptoChecks.all_chars p s = true.
Proof.
  unfold Plus. rewrite Matches_Class_Cat. split.
  - intros (c & s' & -> & Hc & H). apply Matches_Star_Class in H.
    split; [discriminate |]. cbn. now rewrite Hc, H.
  - intros [Hne Ha]. destruct s as [| c s]; [congruence |].
    cbn in Ha. apply andb_true_iff in Ha. destruct Ha as [Hc Ha].
    exists c, s. repeat split; [exact Hc |]. now apply Matches_Star_Class.
Qed.

(** The hash pattern accepts [0x] and exactly 64 hex digits. *)
Lemma txHash_pattern_is_32_byte_hex (h : string) :
  test VerifyCrypto.txHash_pattern h = CryptoChecks.is_32_byte_hex h.
Proof.
  apply Bool.eq_iff_eq_true. rewrite test_Matches.
  unfold VerifyCrypto.txHash_pattern. rewrite Matches_Chr_Cat. split.
  - intros (s1 & -> & H). apply Matches_Chr_Cat in H.
    destruct H as (s2 & -> & H). apply Matches_Times_Class in H.
    destruct H as [Hl Ha]. cbn. rewrite Hl, Ha. reflexivity.
  - intros H. destruct h as [| c0 [| c1 d]]; try discriminate H;
      try (destruct c0 as [[] [] [] [] [] [] [] []]; discriminate H).
    destruct c0 as [[] [] [] [] [] [] [] []]; try discriminate H.
    destruct c1 as [[] [] [] [] [] [] [] []]; try discriminate H.
    cbn in H. apply andb_true_iff in H. destruct H as [Hl Ha].
    apply Nat.eqb_eq in Hl.
    eexists. split; [reflexivity |]. apply Matches_Chr_Cat.
    eexists. split; [reflexivity |]. now apply Matches_Times_Class.
Qed.

(** The email pattern accepts [local@domain.tld]. *)
Lemma email_pattern_is_basic_address (e : string) :
  test VerifyCrypto.email_pattern e = true <-> CryptoChecks.is_basic_address e.
Proof.
  rewrite test_Matches. unfold VerifyCrypto.email_pattern,
    CryptoChecks.is_basic_address, CryptoChecks.address_part.
  rewrite Matches_Plus_Class_Cat. split.
  - intros (l & s1 & -> & Hl & H). apply Matches_Chr_Cat in H.
    destruct H as (s2 & -> & H). apply Matches_Plus_Class_Cat in H.
    destruct H as (d & s3 & -> & Hd & H). apply Matches_Chr_Cat in H.
    destruct H as (t & -> & H). apply Matches_Plus_Class in H.
    exists l, d, t. now repeat split.
  - intros (l & d & t & -> & Hl & Hd & Ht).
    exists l, ("@" ++ d ++ "." ++ t)%string. repeat split; try apply Hl.
    apply Matches_Chr_Cat. eexists. split; [reflexivity |].
    apply Matches_Plus_Class_Cat. exists d, ("." ++ t)%string.
    repeat split; try apply Hd.
    apply Matches_Chr_Cat. eexists. split; [reflexivity |].
    now apply Matches_Plus_Class.
Qed.

End RegexFacts.

(* ===================================================================== *)
(** * Numbers for integers, and their comparisons *)
(* ===================================================================== *)

(** The code compares Numbers; the specification speaks of integers. On the
    Numbers that [parseInt] returns, comparing against a bound below 2^53
    is comparing the integers: rounding an integer to a Number keeps its
    order against every such bound. *)
Module NumberFacts.

Import JSString JSNumber VerifyCrypto CryptoChecks.

(** Swapping the operands of a comparison of Numbers reverses its result. *)
Lemma SFcompare_antisym (x y : number) :
  SFcompare y x = option_map CompOpp (SFcompare x y).
Proof.
  destruct x as [sx | sx | | sx mx ex], y as [sy | sy | | sy my ey]; simpl;
    try destruct sx; try destruct sy; try reflexivity.
  - rewrite (Z.compare_antisym ex ey).
    destruct (ex ?= ey); simpl; try reflexivity.
    rewrite CompOpp_involutive.
    exact (f_equal Some (Pos.compare_cont_antisym my mx Eq)).
  - rewrite (Z.compare_antisym ex ey).
    destruct (ex ?= ey); simpl; try reflexivity.
    f_equal. symmetry. exact (Pos.compare_cont_antisym mx my Eq).
Qed.

(** The number of binary digits of [m], and what it bounds. *)
Lemma digits2_size (m : positive) : digits2_pos m = Pos.size m.
Proof. induction m; simpl; congruence. Qed.

Lemma digits2_upper (m : positive) : Zpos m < 2 ^ Zpos (digits2_pos m).
Proof.
  rewrite digits2_size. pose proof (Pos2Z.pos_lt_pos _ _ (Pos.size_gt m)) as H.
  now rewrite Pos2Z.inj_pow in H.
Qed.

Lemma digits2_lower (m : positive) : 2 ^ (Zpos (digits2_pos m) - 1) <= Zpos m.
Proof.
  rewrite digits2_size. pose proof (Pos2Z.pos_le_pos _ _ (Pos.size_le m)) as H'.
  rewrite Pos2Z.inj_pow in H'.
  replace (Zpos (Pos.size m)) with (Zpos (Pos.size m) - 1 + 1) in H' by lia.
  rewrite Z.pow_add_r, Z.pow_1_r in H' by lia. lia.
Qed.

(** Shifting a mantissa left by [k] digits. *)
Lemma iter_xO (m k : positive) : Zpos (Pos.iter xO m k) = Zpos m * 2 ^ Zpos k.
Proof.
  revert m. induction k using Pos.peano_ind; intros m.
  - simpl. lia.
  - rewrite Pos.iter_succ, Pos2Z.inj_xO, IHk, Pos2Z.inj_succ, Z.pow_succ_r by lia. lia.
Qed.

Lemma digits2_iter_xO (m k : positive) :
  digits2_pos (Pos.iter xO m k) = (digits2_pos m + k)%positive.
Proof.
  induction k using Pos.peano_ind.
  - simpl. lia.
  - rewrite Pos.iter_succ. simpl. rewrite IHk. lia.
Qed.

(** Shifting a mantissa right by [p] digits halves it [p] times. *)
Lemma iter_pos_iter {A : Type} (f : A -> A) (p : positive) (x : A) :
  iter_pos f p x = Pos.iter f x p.
Proof.
  revert x. induction p as [p IH | p IH |]; intros x; simpl.
  - now rewrite !IH, !Pos.iter_swap.
  - now rewrite !IH.
  - reflexivity.
Qed.

Lemma shr_1_half (mrs : shr_record) :
  0 <= shr_m mrs -> shr_m (shr_1 mrs) = shr_m mrs / 2.
Proof.
  destruct mrs as [m r s]. cbn [shr_m]. intros Hm.
  destruct m as [| p | p]; [reflexivity | | lia].
  destruct p as [p | p |]; cbn [shr_1 shr_m].
  - rewrite Pos2Z.inj_xI. apply Z.div_unique with 1; lia.
  - rewrite Pos2Z.inj_xO. apply Z.div_unique with 0; lia.
  - reflexivity.
Qed.

Lemma shr_iter_div (p : positive) (mrs : shr_record) :
  0 <= shr_m mrs ->
  shr_m (iter_pos shr_1 p mrs) = shr_m mrs / 2 ^ Zpos p.
Proof.
  intros Hm. rewrite iter_pos_iter. induction p using Pos.peano_ind.
  - cbn [Pos.iter]. now rewrite shr_1_half.
  - rewrite Pos.iter_succ, shr_1_half, IHp.
    + rewrite Pos2Z.inj_succ, Z.pow_succ_r by lia.
      rewrite Z.div_div by lia. f_equal. lia.
    + rewrite IHp. apply Z.div_pos; lia.
Qed.

(** Rounding moves a mantissa up by one at most. *)
Lemma round_nearest_even_bounds (m : Z) (l : location) :
  m <= round_nearest_even m l <= m + 1.
Proof.
  destruct l as [| []]; cbn [round_nearest_even]; try lia.
  destruct (Z.even m); lia.
Qed.

(** A mantissa of 53 digits with an exponent in range is kept as it is. *)
Lemma binary_round_aux_canonical (sx : bool) (mz : positive) (ez : Z) :
  Zpos (digits2_pos mz) = 53 -> -1074 <= ez <= 971 ->
  binary_round_aux prec emax sx (Zpos mz) ez loc_Exact = S754_finite sx mz ez.
Proof.
  intros Hd He. unfold binary_round_aux, shr_fexp, fexp, emin, prec, emax.
  cbn [Zdigits2 shr_record_of_loc]. rewrite Hd.
  replace (Z.max (53 + ez - 53) (3 - 1024 - 53) - ez) with 0 by lia.
  cbn [shr shr_m loc_of_shr_record round_nearest_even Zdigits2 shr_record_of_loc].
  rewrite Hd.
  replace (Z.max (53 + ez - 53) (3 - 1024 - 53) - ez) with 0 by lia.
  cbn [shr shr_m].
  replace (ez <=? 1024 - 53) with true by (symmetry; apply Z.leb_le; lia).
  reflexivity.
Qed.

(** An integer of at most 53 digits is represented exactly. *)
Lemma binary_round_exact (sx : bool) (m : positive) :
  Zpos (digits2_pos m) <= 53 ->
  exists mz,
    binary_round prec emax sx m 0
    = S754_finite sx mz (Zpos (digits2_pos m) - 53) /\
    Zpos mz = Zpos m * 2 ^ (53 - Zpos (digits2_pos m)).
Proof.
  intros Hd. unfold binary_round, shl_align, fexp, emin, prec, emax.
  replace (Z.max (Zpos (digits2_pos m) + 0 - 53) (3 - 1024 - 53) - 0)
    with (Zpos (digits2_pos m) - 53) by lia.
  replace (Z.max (Zpos (digits2_pos m) + 0 - 53) (3 - 1024 - 53))
    with (Zpos (digits2_pos m) - 53) by lia.
  destruct (Zpos (digits2_pos m) - 53) as [| k | k] eqn:Ek; [| lia |].
  - exists m. split.
    + apply (binary_round_aux_canonical sx m 0); lia.
    + replace (53 - Zpos (digits2_pos m)) with 0 by lia. lia.
  - exists (Pos.iter xO m k). split.
    + apply binary_round_aux_canonical; [| lia].
      rewrite digits2_iter_xO. lia.
    + rewrite iter_xO. f_equal. f_equal. lia.
Qed.

(** A mantissa of at least [2^k] has more than [k] digits. *)
Lemma digits2_ge (q : positive) (k : Z) :
  2 ^ k <= Zpos q -> k < Zpos (digits2_pos q).
Proof.
  intros H. pose proof (digits2_upper q) as Hu.
  destruct (Z_lt_le_dec k (Zpos (digits2_pos q))) as [Hlt | Hge]; [exact Hlt |].
  pose proof (Z.pow_le_mono_r 2 _ _ ltac:(lia) Hge). lia.
Qed.

(** An integer of more than 53 digits rounds to a Number with a positive
    exponent, or to an infinity. *)
Lemma binary_round_large (sx : bool) (m : positive) :
  53 < Zpos (digits2_pos m) ->
  (exists mz ez, binary_round prec emax sx m 0 = S754_finite sx mz ez /\ 1 <= ez) \/
  binary_round prec emax sx m 0 = S754_infinity sx.
Proof.
  intros Hd. unfold binary_round, shl_align, fexp, emin, prec, emax.
  replace (Z.max (Zpos (digits2_pos m) + 0 - 53) (3 - 1024 - 53) - 0)
    with (Zpos (digits2_pos m) - 53) by lia.
  destruct (Zpos (digits2_pos m) - 53) as [| p | p] eqn:Ep; try lia.
  unfold binary_round_aux, shr_fexp, fexp, emin.
  cbn [Zdigits2 shr_record_of_loc].
  replace (Z.max (Zpos (digits2_pos m) + 0 - 53) (3 - 1024 - 53) - 0)
    with (Zpos p) by lia.
  cbn [shr].
  set (mrs := iter_pos shr_1 p
                {| shr_m := Zpos m; shr_r := false; shr_s := false |}).
  assert (Hmrs : 2 ^ 52 <= shr_m mrs).
  { unfold mrs. rewrite shr_iter_div by (cbn; lia). cbn [shr_m].
    apply Z.div_le_lower_bound; [lia |].
    rewrite <- Z.pow_add_r by lia.
    replace (Zpos p + 52) with (Zpos (digits2_pos m) - 1) by lia.
    apply digits2_lower. }
  pose proof (round_nearest_even_bounds (shr_m mrs) (loc_of_shr_record mrs)) as Hr.
  destruct (round_nearest_even (shr_m mrs) (loc_of_shr_record mrs))
    as [| q | q] eqn:Eq; try lia.
  assert (Hq : 52 < Zpos (digits2_pos q)) by (apply digits2_ge; lia).
  cbn [Zdigits2].
  replace (Z.max (Zpos (digits2_pos q) + (0 + Zpos p) - 53) (3 - 1024 - 53)
           - (0 + Zpos p))
    with (Zpos (digits2_pos q) - 53) by lia.
  destruct (Zpos (digits2_pos q) - 53) as [| p2 | p2] eqn:Ep2; try lia; cbn [shr].
  - cbn [shr_m]. destruct (0 + Zpos p <=? 1024 - 53); [left | right; reflexivity].
    exists q, (0 + Zpos p). split; [reflexivity | lia].
  - set (mrs2 := iter_pos shr_1 p2 _).
    assert (Hm2 : 2 ^ 52 <= shr_m mrs2).
    { unfold mrs2. rewrite shr_iter_div by (cbn; lia). cbn [shr_m].
      apply Z.div_le_lower_bound; [lia |].
      rewrite <- Z.pow_add_r by lia.
      replace (Zpos p2 + 52) with (Zpos (digits2_pos q) - 1) by lia.
      apply digits2_lower. }
    destruct (shr_m mrs2) as [| q2 | q2] eqn:Eq2; try lia.
    destruct (0 + Zpos p + Zpos p2 <=? 1024 - 53); [left | right; reflexivity].
    exists q2, (0 + Zpos p + Zpos p2). split; [reflexivity | lia].
Qed.

(** Rounding keeps the order of an integer against a bound below 2^53. *)
Lemma SFcompare_of_Z (n c : Z) (neg : bool) :
  0 < c < 2 ^ 53 ->
  SFcompare (of_Z_signed n neg) (of_Z c) = Some (n ?= c).
Proof.
  intros [Hc0 Hc1]. destruct c as [| pc | pc]; try lia.
  assert (Hdc : Zpos (digits2_pos pc) <= 53).
  { pose proof (digits2_lower pc) as Hl.
    destruct (Z_le_gt_dec (Zpos (digits2_pos pc)) 53) as [H | H]; [exact H |].
    pose proof (Z.pow_le_mono_r 2 53 (Zpos (digits2_pos pc) - 1) ltac:(lia) ltac:(lia)).
    lia. }
  destruct (binary_round_exact false pc Hdc) as (mc & Ec & Hmc).
  pose proof (digits2_upper pc) as Hcu. pose proof (digits2_lower pc) as Hcl.
  unfold of_Z, of_Z_signed, binary_normalize. rewrite Ec.
  destruct n as [| pn | pn].
  - reflexivity.
  - pose proof (digits2_upper pn) as Hnu. pose proof (digits2_lower pn) as Hnl.
    destruct (Z_le_gt_dec (Zpos (digits2_pos pn)) 53) as [Hdn | Hdn].
    + destruct (binary_round_exact false pn Hdn) as (mn & En & Hmn).
      rewrite En. cbn [SFcompare]. f_equal.
      destruct (Z.compare_spec (Zpos (digits2_pos pn) - 53)
                               (Zpos (digits2_pos pc) - 53)) as [He | He | He].
      * assert (Hd : Zpos (digits2_pos pn) = Zpos (digits2_pos pc)) by lia.
        rewrite Hd in Hmn.
        change (Pos.compare_cont Eq mn mc) with (Zpos mn ?= Zpos mc).
        rewrite Hmn, Hmc.
        assert (HK : 0 < 2 ^ (53 - Zpos (digits2_pos pc)))
          by (apply Z.pow_pos_nonneg; lia).
        destruct (Z.compare_spec (Zpos pn) (Zpos pc)) as [Hc | Hc | Hc].
        -- rewrite Hc. apply Z.compare_refl.
        -- apply Z.compare_lt_iff. nia.
        -- apply Z.compare_gt_iff. nia.
      * symmetry. apply Z.compare_lt_iff.
        pose proof (Z.pow_le_mono_r 2 (Zpos (digits2_pos pn))
                      (Zpos (digits2_pos pc) - 1) ltac:(lia) ltac:(lia)).
        lia.
      * symmetry. apply Z.compare_gt_iff.
        pose proof (Z.pow_le_mono_r 2 (Zpos (digits2_pos pc))
                      (Zpos (digits2_pos pn) - 1) ltac:(lia) ltac:(lia)).
        lia.
    + assert (Hgt : (Zpos pn ?= Zpos pc) = Gt).
      { apply Z.compare_gt_iff.
        pose proof (Z.pow_le_mono_r 2 53 (Zpos (digits2_pos pn) - 1)
                      ltac:(lia) ltac:(lia)).
        lia. }
      rewrite Hgt.
      destruct (binary_round_large false pn ltac:(lia))
        as [(mz & ez & -> & Hez) | ->]; [| reflexivity].
      cbn [SFcompare]. f_equal.
      rewrite (proj2 (Z.compare_gt_iff ez (Zpos (digits2_pos pc) - 53)))
        by lia.
      reflexivity.
  - destruct (Z_le_gt_dec (Zpos (digits2_pos pn)) 53) as [Hdn | Hdn].
    + destruct (binary_round_exact true pn Hdn) as (mn & -> & _). reflexivity.
    + destruct (binary_round_large true pn ltac:(lia))
        as [(mz & ez & -> & _) | ->]; reflexivity.
Qed.

(** [<], [<=], [>=] and [>] of a rounded integer against such a bound. *)
Lemma lt_of_Z (n c : Z) (neg : bool) :
  0 < c < 2 ^ 53 -> lt (of_Z_signed n neg) (of_Z c) = (n <? c).
Proof.
  intros Hc. unfold lt, SFltb. rewrite (SFcompare_of_Z n c neg Hc).
  unfold Z.ltb. now destruct (n ?= c).
Qed.

Lemma le_of_Z (n c : Z) (neg : bool) :
  0 < c < 2 ^ 53 -> le (of_Z_signed n neg) (of_Z c) = (n <=? c).
Proof.
  intros Hc. unfold le, SFleb. rewrite (SFcompare_of_Z n c neg Hc).
  unfold Z.leb. now destruct (n ?= c).
Qed.

Lemma ge_of_Z (n c : Z) (neg : bool) :
  0 < c < 2 ^ 53 -> ge (of_Z_signed n neg) (of_Z c) = (c <=? n).
Proof.
  intros Hc. unfold ge, SFleb.
  rewrite (SFcompare_antisym (of_Z_signed n neg) (of_Z c)).
  rewrite (SFcompare_of_Z n c neg Hc). unfold Z.leb.
  rewrite (Z.compare_antisym n c). now destruct (n ?= c).
Qed.

Lemma gt_of_Z (n c : Z) (neg : bool) :
  0 < c < 2 ^ 53 -> gt (of_Z_signed n neg) (of_Z c) = (c <? n).
Proof.
  intros Hc. unfold gt, SFltb.
  rewrite (SFcompare_antisym (of_Z_signed n neg) (of_Z c)).
  rewrite (SFcompare_of_Z n c neg Hc). unfold Z.ltb.
  rewrite (Z.compare_antisym n c). now destruct (n ?= c).
Qed.

(** The Number the code holds for a log is the Number for the integer its
    data decodes to, or [NaN]. *)
Lemma amount_of_decoded (l : log) :
  match decoded l with
  | Some n => exists neg, amount_of l = of_Z_signed n neg
  | None => amount_of l = NaN
  end.
Proof.
  unfold decoded, amount_of, parseInt.
  change (negb (16 =? 0) && ((16 <? 2) || (36 <? 16))) with false.
  cbv iota.
  destruct (parse_integer (data l) 16) as [[neg n] |]; cbn [option_map snd].
  - now exists neg.
  - reflexivity.
Qed.

(** For an integer other than zero the sign flag plays no part. *)
Lemma amount_of_nonzero (l : log) (n : Z) :
  decoded l = Some n -> n <> 0 -> amount_of l = of_Z n.
Proof.
  intros Hd Hn. pose proof (amount_of_decoded l) as H. rewrite Hd in H.
  destruct H as [neg ->]. destruct n; [congruence | reflexivity | reflexivity].
Qed.

(** Both bounds of the band are below 2^53. *)
Lemma bound_MIN : 0 < 28000000 < 2 ^ 53.
Proof. split; reflexivity. Qed.

Lemma bound_MAX : 0 < 35000000 < 2 ^ 53.
Proof. split; reflexivity. Qed.

(** The two tests of the code on the amount are the two tests of the
    specification on the decoded integer. *)
Lemma within_band_test (l : log) :
  ge (amount_of l) MIN_AMOUNT && le (amount_of l) MAX_AMOUNT = within_band l.
Proof.
  pose proof (amount_of_decoded l) as H. unfold within_band.
  destruct (decoded l) as [n |].
  - destruct H as [neg ->]. unfold MIN_AMOUNT, MAX_AMOUNT.
    now rewrite (ge_of_Z n _ neg bound_MIN), (le_of_Z n _ neg bound_MAX).
  - now rewrite H.
Qed.

Lemma below_minimum_test (l : log) :
  lt (amount_of l) MIN_AMOUNT = below_minimum l.
Proof.
  pose proof (amount_of_decoded l) as H. unfold below_minimum.
  destruct (decoded l) as [n |].
  - destruct H as [neg ->]. unfold MIN_AMOUNT.
    now rewrite (lt_of_Z n _ neg bound_MIN).
  - now rewrite H.
Qed.

Lemma above_maximum_test (l : log) :
  gt (amount_of l) MAX_AMOUNT = above_maximum l.
Proof.
  pose proof (amount_of_decoded l) as H. unfold above_maximum.
  destruct (decoded l) as [n |].
  - destruct H as [neg ->]. unfold MAX_AMOUNT.
    now rewrite (gt_of_Z n _ neg bound_MAX).
  - now rewrite H.
Qed.


Lemma above_not_within (l : log) :
  above_maximum l = true -> within_band l = false.
Proof.
  unfold above_maximum, within_band. destruct (decoded l) as [n |];
    [| discriminate].
  intros H. apply Z.ltb_lt in H. apply andb_false_iff. right.
  apply Z.leb_gt. lia.
Qed.

Lemma above_not_below (l : log) :
  above_maximum l = true -> below_minimum l = false.
Proof.
  unfold above_maximum, below_minimum. destruct (decoded l) as [n |];
    [| discriminate].
  intros H. apply Z.ltb_lt in H. apply Z.ltb_ge. lia.
Qed.

Lemma not_a_number_not_within (l : log) :
  not_a_number l = true -> within_band l = false.
Proof.
  unfold not_a_number, within_band. now destruct (decoded l).
Qed.

Lemma not_a_number_not_below (l : log) :
  not_a_number l = true -> below_minimum l = false.
Proof.
  unfold not_a_number, below_minimum. now destruct (decoded l).
Qed.

End NumberFacts.

(* ===================================================================== *)
(** * The log scan of the crypto verifier *)
(* ===================================================================== *)

Module ScanFacts.

Import JSString JSNumber Regex Http Effects VerifyCrypto CryptoChecks NumberFacts.

Lemma truthy_toLowerCase (s : string) : truthy (toLowerCase s) = truthy s.
Proof.
  destruct s; reflexivity.
Qed.

Lemma str_or_empty (v : option string) :
  match v with
  | Some s => if truthy s then s else ""
  | None => ""
  end = str v.
Proof.
  destruct v as [[| c s] |]; reflexivity.
Qed.

Lemma RECEIVING_WALLET_wallet (env : environment) :
  RECEIVING_WALLET env = toLowerCase (wallet env).
Proof.
  unfold RECEIVING_WALLET, wallet. now rewrite str_or_empty.
Qed.

Lemma toLowerCase_destination (t : string) :
  toLowerCase (destination t) = ("0x" ++ toLowerCase (slice t 26))%string.
Proof.
  reflexivity.
Qed.

(** The part of a string behind its first [n] characters is its last
    [length - n] characters. *)
Lemma substring_all (s : string) : substring 0 (String.length s) s = s.
Proof.
  induction s as [| c s IH]; simpl; [reflexivity | now rewrite IH].
Qed.

Lemma slice_substring (s : string) (n : nat) :
  slice s n = substring n (String.length s - n) s.
Proof.
  revert s. induction n as [| n IH]; intros s.
  - simpl. rewrite Nat.sub_0_r. now rewrite substring_all.
  - destruct s as [| c s]; simpl; [reflexivity | apply IH].
Qed.

(** On a 32-byte word, [slice(26)] takes the low 20 bytes. *)
Lemma slice_26_low_20_bytes (t : string) :
  String.length t = 66%nat -> slice t 26 = low_20_bytes t.
Proof.
  intros H. rewrite slice_substring. unfold low_20_bytes. now rewrite H.
Qed.

Section Scan.

Variable env : environment.

(** The loop body in the vocabulary of the checks. *)
Lemma verify_log_checks (l : log) :
  verify_log env l =
  if negb (emitter_is_token l) then Normal None
  else if negb (first_topic_is_transfer l) then Normal None
  else match third_topic l with
       | None => Throw slice_of_undefined
       | Some _ =>
           if wallet_configured env && negb (destination_is_wallet env l)
           then Normal None
           else if within_band l
           then Normal (Some (Valid (div (amount_of l) (of_Z 1000000))))
           else if below_minimum l
           then Normal (Some (Invalid (below_reason (amount_of l))))
           else Normal None
       end.
Proof.
  rewrite <- within_band_test, <- below_minimum_test.
  unfold verify_log, emitter_is_token, same_ignoring_case.
  destruct (String.eqb (toLowerCase (address l)) (toLowerCase USDC_CONTRACT));
    [| reflexivity].
  unfold first_topic_is_transfer, destination_is_wallet, third_topic,
    wallet_configured.
  rewrite RECEIVING_WALLET_wallet, truthy_toLowerCase.
  destruct (topics l) as [ts |]; [| reflexivity].
  destruct ts as [| t0 ts]; [reflexivity |].
  cbn [nth_error negb].
  destruct (String.eqb t0 TRANSFER_TOPIC); [| reflexivity].
  cbn [negb].
  destruct ts as [| t1 [| t2 ts]]; try reflexivity.
Qed.

Lemma verify_log_rejected (l : log) :
  rejected env l = true -> verify_log env l = Normal None.
Proof.
  rewrite verify_log_checks. unfold rejected.
  destruct (emitter_is_token l); [| reflexivity].
  destruct (first_topic_is_transfer l); [| reflexivity].
  destruct (third_topic l); cbn [negb orb]; [| discriminate].
  now intros ->.
Qed.

Lemma verify_log_lacks_destination (l : log) :
  lacks_destination l = true -> verify_log env l = Throw slice_of_undefined.
Proof.
  rewrite verify_log_checks. unfold lacks_destination.
  destruct (emitter_is_token l); [| discriminate].
  destruct (first_topic_is_transfer l); [| discriminate].
  destruct (third_topic l); [discriminate | reflexivity].
Qed.

(** What the loop body does with a log that passes the checks depends on
    the amount alone. *)
Lemma verify_log_matching (l : log) :
  matching env l = true ->
  verify_log env l =
  if within_band l
  then Normal (Some (Valid (div (amount_of l) (of_Z 1000000))))
  else if below_minimum l
  then Normal (Some (Invalid (below_reason (amount_of l))))
  else Normal None.
Proof.
  rewrite verify_log_checks. unfold matching.
  destruct (emitter_is_token l); [| discriminate].
  destruct (first_topic_is_transfer l); [| discriminate].
  destruct (third_topic l); [| discriminate].
  cbn [negb andb].
  destruct (wallet_configured env); cbn [negb orb andb]; [| reflexivity].
  now intros ->.
Qed.

Lemma verify_log_passed_over (l : log) :
  passed_over env l = true -> verify_log env l = Normal None.
Proof.
  unfold passed_over. intros H. apply orb_true_iff in H.
  destruct H as [H | H]; [now apply verify_log_rejected |].
  apply andb_true_iff in H. destruct H as [Hm Ha].
  rewrite (verify_log_matching _ Hm).
  apply orb_true_iff in Ha. destruct Ha as [Ha | Ha].
  - now rewrite (above_not_within _ Ha), (above_not_below _ Ha).
  - now rewrite (not_a_number_not_within _ Ha), (not_a_number_not_below _ Ha).
Qed.

(** A log is of exactly one of three kinds. *)
Lemma log_kinds (l : log) :
  (rejected env l = true /\ matching env l = false /\ lacks_destination l = false) \/
  (rejected env l = false /\ matching env l = true /\ lacks_destination l = false) \/
  (rejected env l = false /\ matching env l = false /\ lacks_destination l = true).
Proof.
  unfold rejected, matching, lacks_destination.
  destruct (emitter_is_token l), (first_topic_is_transfer l), (third_topic l),
    (wallet_configured env), (destination_is_wallet env l); cbn; tauto.
Qed.

(** The loop moves past a prefix of logs it passes over. *)
Lemma for_of_passed_over (pre rest : list log) (after : completion transfer) :
  Forall (fun x => passed_over env x = true) pre ->
  for_of (verify_log env) (pre ++ rest) after = for_of (verify_log env) rest after.
Proof.
  induction 1 as [| x pre Hx _ IH]; [reflexivity |].
  cbn [app for_of]. now rewrite (verify_log_passed_over _ Hx).
Qed.

Lemma rejected_passed_over (l : log) :
  rejected env l = true -> passed_over env l = true.
Proof.
  unfold passed_over. now intros ->.
Qed.

Lemma Forall_rejected_passed_over (ls : list log) :
  Forall (fun x => rejected env x = true) ls ->
  Forall (fun x => passed_over env x = true) ls.
Proof.
  intros H. eapply Forall_impl; [| exact H]. apply rejected_passed_over.
Qed.

(** The scan at the first log it does not pass over. *)
Lemma scan_reaches (r : receipt) (pre post : list log) (l : log) :
  logs r = Some (pre ++ l :: post)%list ->
  Forall (fun x => passed_over env x = true) pre ->
  verifyUSDCTransfer env r =
  match verify_log env l with
  | Throw e => Throw e
  | Normal (Some t) => Normal t
  | Normal None => verifyUSDCTransfer env (mkReceipt (status r) (Some post))
  end.
Proof.
  intros Hl Hpre. unfold verifyUSDCTransfer. rewrite Hl.
  rewrite (for_of_passed_over _ _ _ Hpre). reflexivity.
Qed.

End Scan.

End ScanFacts.

(* ===================================================================== *)
(** * The crypto handler on an accepted request *)
(* ===================================================================== *)

Module HandlerFacts.

Import JSString JSNumber Regex Http Effects VerifyCrypto CryptoChecks.

Lemma test_nonempty (p : regex) (s : string) :
  nullable p = false -> test p s = true -> truthy s = true.
Proof.
  destruct s; simpl; [congruence | reflexivity].
Qed.

Section Handler.

Variable env : environment.
Variable w : world.

(** Every path of the handler behind the three validations: the response
    and the trace, by the answer of the node, the verdict of the scan and
    the outcome of the email send. *)
Lemma run_handler_accepted (req : request) (e h : string) :
  accepted req e h ->
  run (handler env w req) =
  match rpc w (rpcUrl env) h with
  | Throw _ =>
      (Normal (respond 500 (error_body server_error_reason)),
       [rpc_call env h; ConsoleError "Verification error:"])
  | Normal None =>
      (Normal (respond 400 (error_body not_found_reason)), [rpc_call env h])
  | Normal (Some r) =>
      if String.eqb (status r) "0x1"
      then match verifyUSDCTransfer env r with
           | Throw _ =>
               (Normal (respond 500 (error_body server_error_reason)),
                [rpc_call env h; ConsoleError "Verification error:"])
           | Normal (Invalid reason) =>
               (Normal (respond 400 (error_body reason)), [rpc_call env h])
           | Normal (Valid _) =>
               (Normal (respond 200 success_body),
                [rpc_call env h; EmailSend (delivery_mail e);
                 match send w (delivery_mail e) with
                 | Normal _ => ConsoleLog "Crypto purchase verified and email sent:"
                 | Throw _ => ConsoleError "Email send failed (returning link anyway):"
                 end])
           end
      else (Normal (respond 400 (error_body not_found_reason)), [rpc_call env h])
  end.
Proof.
  intros (Hm & Hp & Hh & He).
  assert (Te : truthy e = true) by (now apply (test_nonempty email_pattern)).
  assert (Th : truthy h = true) by (now apply (test_nonempty txHash_pattern)).
  unfold handler. rewrite Hm, Hp.
  cbn [String.eqb Ascii.eqb Bool.eqb negb email txHash truthy_opt str].
  rewrite Te, Th, Hh, He. cbn [negb orb].
  unfold rpc_call, delivery_mail.
  cbv beta iota zeta
    delta [run try_catch bind fetchTxReceipt emit lift ret app].
  destruct (rpc w (rpcUrl env) h) as [[r |] | err];
    cbv beta iota zeta; try reflexivity.
  destruct (String.eqb (status r) "0x1"); cbn [negb]; [| reflexivity].
  destruct (verifyUSDCTransfer env r) as [[a | reason] | err];
    cbv beta iota zeta; try reflexivity.
  destruct (send w _) as [[] | err]; reflexivity.
Qed.

End Handler.

End HandlerFacts.

(* ===================================================================== *)
(** * Properties of the crypto verifier *)
(* ===================================================================== *)

Module CryptoClaims.

Import JSString JSNumber Regex Http Effects VerifyCrypto CryptoChecks.
Import RegexFacts NumberFacts ScanFacts HandlerFacts.

Section Claims.

Variable env : environment.


(** C3, as the code has it: a log that passes the emitter and topic
    checks, has a third topic (which passes the destination check when a
    wallet is configured) and decodes to an amount within
    [28,000,000, 35,000,000] gets the verdict valid with the amount divided
    by 1,000,000; when the scan reaches it (every log before it is passed
    over), that is the result of the verification and the handler answers
    200 with success, the fixed download URL and the fixed thank-you
    URL. *)
Theorem C3_amount_within_band_is_valid (l : log) (n : Z) :
  matching env l = true ->
  decoded l = Some n ->
  28000000 <= n <= 35000000 ->
  verify_log env l = Normal (Some (Valid (div (of_Z n) (of_Z 1000000)))) /\
  forall w req e h r pre post,
    accepted req e h ->
    rpc w (rpcUrl env) h = Normal (Some r) ->
    status r = "0x1" ->
    logs r = Some (pre ++ l :: post)%list ->
    Forall (fun x => passed_over env x = true) pre ->
    verifyUSDCTransfer env r = Normal (Valid (div (of_Z n) (of_Z 1000000))) /\
    fst (run (handler env w req))
    = Normal (mkResponse 200 cors_headers
                (Some [ ("success", JBool true);
                        ("downloadUrl", JString DOWNLOAD_URL);
                        ("thankYouUrl", JString THANK_YOU_URL);
                        ("message", JString "Payment verified! Your download is ready.") ])).
Proof.
  intros Hm Hn Hband.
  assert (Hw : within_band l = true).
  { unfold within_band. rewrite Hn. apply andb_true_iff.
    split; apply Z.leb_le; lia. }
  assert (Hlog : verify_log env l
                 = Normal (Some (Valid (div (of_Z n) (of_Z 1000000))))).
  { rewrite (verify_log_matching env l Hm), Hw.
    rewrite (amount_of_nonzero l n Hn) by lia. reflexivity. }
  split; [exact Hlog |].
  intros w req e h r pre post Hacc Hrpc Hst Hl Hpre.
  assert (Hv : verifyUSDCTransfer env r
               = Normal (Valid (div (of_Z n) (of_Z 1000000)))).
  { now rewrite (scan_reaches env r pre post l Hl Hpre), Hlog. }
  split; [exact Hv |].
  rewrite (run_handler_accepted env w req e h Hacc), Hrpc, Hst, Hv.
  reflexivity.
Qed.

(** C5, as the code has it: a log gets a verdict only if its emitter is
    the token contract (without regard to case), its first topic is the
    Transfer signature and, when a receiving wallet is configured, the
    destination taken from its third topic (the low 20 bytes of a 32-byte
    word) is that wallet (without regard to case). A log that fails the
    emitter check or the topic check, or whose third topic gives another
    destination than the configured wallet, is skipped. The scan goes
    through the logs in order: skipped logs in front do not change the
    result, the first log that gets a verdict decides whatever follows it,
    and a throw at the first log that is not skipped is the result. *)
Theorem C5_checks_of_the_scan (l : log) :
  (forall t, verify_log env l = Normal (Some t) ->
     emitter_is_token l = true /\
     first_topic_is_transfer l = true /\
     (wallet_configured env = true -> destination_is_wallet env l = true)) /\
  (forall t2, third_topic l = Some t2 -> String.length t2 = 66%nat ->
     destination t2 = ("0x" ++ low_20_bytes t2)%string) /\
  (emitter_is_token l = false -> verify_log env l = Normal None) /\
  (first_topic_is_transfer l = false -> verify_log env l = Normal None) /\
  (forall t2, third_topic l = Some t2 -> wallet_configured env = true ->
     destination_is_wallet env l = false -> verify_log env l = Normal None) /\
  (forall st pre rest, Forall (fun x => rejected env x = true) pre ->
     verifyUSDCTransfer env (mkReceipt st (Some (pre ++ rest)%list))
     = verifyUSDCTransfer env (mkReceipt st (Some rest))) /\
  (forall st pre post, Forall (fun x => rejected env x = true) pre ->
     (forall t, verify_log env l = Normal (Some t) ->
        verifyUSDCTransfer env (mkReceipt st (Some (pre ++ l :: post)%list))
        = Normal t) /\
     (forall err, verify_log env l = Throw err ->
        verifyUSDCTransfer env (mkReceipt st (Some (pre ++ l :: post)%list))
        = Throw err)) /\
  (forall st ls, Forall (fun x => rejected env x = true) ls ->
     verifyUSDCTransfer env (mkReceipt st (Some ls))
     = Normal (Invalid
         "No valid USDC transfer found in this transaction. Please check the transaction hash.")).
Proof.
  split; [| split; [| split; [| split; [| split; [| split; [| split]]]]]].
  - intros t. rewrite verify_log_checks.
    destruct (emitter_is_token l); [| discriminate].
    destruct (first_topic_is_transfer l); [| discriminate].
    destruct (third_topic l); [| discriminate].
    cbn [negb]. intros H. repeat split. intros Hw. rewrite Hw in H.
    destruct (destination_is_wallet env l); [reflexivity | discriminate].
  - intros t2 _ Hlen. unfold destination. now rewrite slice_26_low_20_bytes.
  - intros H. apply verify_log_rejected. unfold rejected. now rewrite H.
  - intros H. apply verify_log_rejected. unfold rejected. rewrite H.
    now rewrite orb_true_r.
  - intros t2 Ht Hw Hd. apply verify_log_rejected. unfold rejected.
    rewrite Ht, Hw, Hd. now rewrite orb_true_r.
  - intros st pre rest Hpre. unfold verifyUSDCTransfer. cbn [logs].
    apply for_of_passed_over. now apply Forall_rejected_passed_over.
  - intros st pre post Hpre.
    pose proof (scan_reaches env (mkReceipt st (Some (pre ++ l :: post)%list))
                  pre post l eq_refl
                  (Forall_rejected_passed_over env pre Hpre)) as Hscan.
    split.
    + intros t Ht. now rewrite Hscan, Ht.
    + intros err Ht. now rewrite Hscan, Ht.
  - intros st ls Hls. unfold verifyUSDCTransfer. cbn [logs].
    rewrite <- (app_nil_r ls).
    now rewrite (for_of_passed_over env ls [] _
                   (Forall_rejected_passed_over env ls Hls)).
Qed.

(** C10, as the code has it: on a log whose emitter is the token contract
    and whose first topic is the Transfer signature but which has fewer
    than three topics, taking the destination from the third topic throws;
    when the scan reaches such a log (every log before it is passed over,
    so that none gives a verdict first) the verification throws and the
    handler answers with the generic 500 server error, not with a 400. *)
Theorem C10_missing_third_topic_is_a_server_error (l : log) (ts : list string) :
  emitter_is_token l = true ->
  first_topic_is_transfer l = true ->
  topics l = Some ts ->
  (List.length ts < 3)%nat ->
  verify_log env l = Throw slice_of_undefined /\
  forall w req e h r pre post,
    accepted req e h ->
    rpc w (rpcUrl env) h = Normal (Some r) ->
    status r = "0x1" ->
    logs r = Some (pre ++ l :: post)%list ->
    Forall (fun x => passed_over env x = true) pre ->
    verifyUSDCTransfer env r = Throw slice_of_undefined /\
    run (handler env w req)
    = (Normal (respond 500 (error_body
         "Verification failed. Please email felix@masinov.co with your transaction hash.")),
       [RpcPost (rpcUrl env) "eth_getTransactionReceipt" [h];
        ConsoleError "Verification error:"]).
Proof.
  intros Hem Htop Hts Hlen.
  assert (Hlack : lacks_destination l = true).
  { unfold lacks_destination, third_topic. rewrite Hem, Htop, Hts.
    destruct ts as [| t0 [| t1 [| t2 ts']]]; try reflexivity.
    cbn [List.length] in Hlen. lia. }
  pose proof (verify_log_lacks_destination env l Hlack) as Hlog.
  split; [exact Hlog |].
  intros w req e h r pre post Hacc Hrpc Hst Hl Hpre.
  assert (Hv : verifyUSDCTransfer env r = Throw slice_of_undefined).
  { now rewrite (scan_reaches env r pre post l Hl Hpre), Hlog. }
  split; [exact Hv |].
  rewrite (run_handler_accepted env w req e h Hacc), Hrpc, Hst, Hv.
  reflexivity.
Qed.

Variable w : world.

(** C4: a POST request whose body parsed to a value other than [null] and
    whose email or transaction hash is missing, whose hash is not [0x] and
    exactly 64 hex digits, or whose email fails the address pattern is
    answered 400 with its own reason and without any outbound call; the
    checks come in this order and the first failure decides. A body that
    parsed to [null] has neither field, and there the handler gives no
    answer: reading the two fields throws before the first check, outside
    every [try] block, and the exception leaves the handler (without a
    call). *)
Theorem C4_validation_order (req : request) :
  method req = "POST" ->
  (forall b, parsed req = Parsed b ->
     (truthy_opt (email b) = false \/ truthy_opt (txHash b) = false ->
      run (handler env w req)
      = (Normal (respond 400 (error_body "Email and transaction hash are required")),
         [])) /\
     (forall e h, email b = Some e -> e <> "" -> txHash b = Some h -> h <> "" ->
      test txHash_pattern h = false ->
      run (handler env w req)
      = (Normal (respond 400 (error_body "Invalid transaction hash format")), [])) /\
     (forall e h, email b = Some e -> e <> "" -> txHash b = Some h ->
      test txHash_pattern h = true ->
      test email_pattern e = false ->
      run (handler env w req)
      = (Normal (respond 400 (error_body "Invalid email format")), []))) /\
  (parsed req = ParsedNull ->
   run (handler env w req) = (Throw destructure_of_null, [])) /\
  (forall h, test txHash_pattern h = is_32_byte_hex h) /\
  (forall e, test email_pattern e = true <-> is_basic_address e).
Proof.
  intros Hm.
  assert (Hne : forall s, s <> "" -> truthy s = true).
  { intros [| c s] Hs; [congruence | reflexivity]. }
  split; [| split; [| split]].
  - intros b Hp. unfold handler. rewrite Hm, Hp.
    cbn [String.eqb Ascii.eqb Bool.eqb negb].
    split; [| split].
    + intros [H | H]; rewrite H; cbn [negb orb]; [reflexivity |].
      now rewrite orb_true_r.
    + intros e h He Hne_e Hh Hne_h Hbad. rewrite He, Hh.
      cbn [truthy_opt str]. rewrite (Hne e Hne_e), (Hne h Hne_h), Hbad.
      reflexivity.
    + intros e h He Hne_e Hh Hgood Hbad. rewrite He, Hh.
      cbn [truthy_opt str].
      rewrite (Hne e Hne_e), (test_nonempty txHash_pattern h eq_refl Hgood).
      rewrite Hgood, Hbad. reflexivity.
  - intros Hp. unfold handler. rewrite Hm, Hp. reflexivity.
  - apply txHash_pattern_is_32_byte_hex.
  - apply email_pattern_is_basic_address.
Qed.

(** C7: when the lookup yields no receipt, or a receipt whose status is
    not ["0x1"], the handler answers 400 with the not-found-or-failed
    message; the lookup is its only call, whatever the logs: no log is
    inspected and no email is sent. *)
Theorem C7_missing_or_failed_receipt (req : request) (e h : string) :
  accepted req e h ->
  rpc w (rpcUrl env) h = Normal None \/
  (exists r, rpc w (rpcUrl env) h = Normal (Some r) /\ status r <> "0x1") ->
  run (handler env w req)
  = (Normal (respond 400 (error_body
       "Transaction not found or failed. Please check the hash and try again.")),
     [RpcPost (rpcUrl env) "eth_getTransactionReceipt" [h]]).
Proof.
  intros Hacc Hrpc. rewrite (run_handler_accepted env w req e h Hacc).
  destruct Hrpc as [-> | (r & -> & Hst)]; [reflexivity |].
  apply String.eqb_neq in Hst. now rewrite Hst.
Qed.

(** C8, as the code has it: when every log of the receipt is passed over,
    because it fails the emitter check, the topic check or, on its third
    topic, the destination check, or passes the three with an amount above
    the maximum (or with data that is no number), and so when the logs are
    empty or absent, the verification returns invalid with the
    no-valid-transfer reason and the handler answers 400 with it. *)
Theorem C8_no_valid_transfer (req : request) (e h : string) (r : receipt) :
  accepted req e h ->
  rpc w (rpcUrl env) h = Normal (Some r) ->
  status r = "0x1" ->
  (forall ls, logs r = Some ls -> Forall (fun x => passed_over env x = true) ls) ->
  verifyUSDCTransfer env r
  = Normal (Invalid
      "No valid USDC transfer found in this transaction. Please check the transaction hash.") /\
  run (handler env w req)
  = (Normal (respond 400 (error_body
       "No valid USDC transfer found in this transaction. Please check the transaction hash.")),
     [RpcPost (rpcUrl env) "eth_getTransactionReceipt" [h]]).
Proof.
  intros Hacc Hrpc Hst Hlogs.
  assert (Hv : verifyUSDCTransfer env r = Normal (Invalid no_transfer_reason)).
  { unfold verifyUSDCTransfer. destruct (logs r) as [ls |]; [| reflexivity].
    rewrite <- (app_nil_r ls).
    now rewrite (for_of_passed_over env ls [] _ (Hlogs ls eq_refl)). }
  split; [exact Hv |].
  rewrite (run_handler_accepted env w req e h Hacc), Hrpc, Hst, Hv.
  reflexivity.
Qed.

(** C9: with a valid transfer, a failing email send does not block the
    answer: the handler still answers 200 with success, the fixed download
    URL and the fixed thank-you URL, after one send attempt. *)
Theorem C9_email_failure_does_not_block
  (req : request) (e h : string) (r : receipt) (a : number) (err : error) :
  accepted req e h ->
  rpc w (rpcUrl env) h = Normal (Some r) ->
  status r = "0x1" ->
  verifyUSDCTransfer env r = Normal (Valid a) ->
  send w (delivery_mail e) = Throw err ->
  run (handler env w req)
  = (Normal (mkResponse 200 cors_headers
               (Some [ ("success", JBool true);
                       ("downloadUrl", JString DOWNLOAD_URL);
                       ("thankYouUrl", JString THANK_YOU_URL);
                       ("message", JString "Payment verified! Your download is ready.") ])),
     [RpcPost (rpcUrl env) "eth_getTransactionReceipt" [h];
      EmailSend (delivery_mail e);
      ConsoleError "Email send failed (returning link anyway):"]).
Proof.
  intros Hacc Hrpc Hst Hv Hsend.
  rewrite (run_handler_accepted env w req e h Hacc), Hrpc, Hst, Hv, Hsend.
  reflexivity.
Qed.

End Claims.

End CryptoClaims.

(* ===================================================================== *)
(** * Properties of the card webhook handler *)
(* ===================================================================== *)

Module CardClaims.

Import JSString JSNumber Http Effects StripeWebhook CardChecks.
Import NumberFacts.

Section Claims.

Variable w : world.

(** Every path of the handler on a verified checkout-completed event: the
    response and the trace, by the amount, the buyer's email and the
    outcome of the email send. *)
Lemma run_handler_checkout (req : request) (s : session) :
  verified_checkout w req s ->
  run (handler w req) =
  if lt (to_number (amount_total s)) (of_Z 2800)
     || gt (to_number (amount_total s)) (of_Z 3100)
  then (Normal (respond 200 [("received", JBool true); ("skipped", JBool true)]),
        [ConsoleLog "Checkout session:";
         ConsoleLog "Skipping non-felixcraft purchase:"])
  else if negb (truthy_opt (buyer_email s))
  then (Normal (respond 400 [("error", JString "No customer email")]),
        [ConsoleLog "Checkout session:";
         ConsoleError "No customer email found for session:"])
  else match send w (delivery_mail (VerifyCrypto.str (buyer_email s))) with
       | Normal _ =>
           (Normal (respond 200 [("received", JBool true); ("emailSent", JBool true)]),
            [ConsoleLog "Checkout session:";
             EmailSend (delivery_mail (VerifyCrypto.str (buyer_email s)));
             ConsoleLog "Download email sent to:"])
       | Throw err =>
           (Normal (respond 500 [("error", JString "Failed to send email");
                                 ("details", JString (message err))]),
            [ConsoleLog "Checkout session:";
             EmailSend (delivery_mail (VerifyCrypto.str (buyer_email s)));
             ConsoleError "Failed to send email:"])
       end.
Proof.
  intros (Hm & Hev). unfold handler. rewrite Hm.
  cbn [String.eqb Ascii.eqb Bool.eqb negb].
  unfold buyer_email, delivery_mail.
  cbv beta iota zeta delta [run try_catch bind emit lift ret app].
  rewrite Hev. cbv beta iota zeta.
  cbn [type object String.eqb Ascii.eqb Bool.eqb].
  destruct (lt (to_number (amount_total s)) (of_Z 2800)
            || gt (to_number (amount_total s)) (of_Z 3100)); [reflexivity |].
  destruct (truthy_opt (or_else (details_email_of s) (customer_email s)));
    cbn [negb]; [| reflexivity].
  destruct (send w _) as [[] | err]; reflexivity.
Qed.

(** The band test of the code on an integer amount, which compares
    binary64 Numbers, is the test on the integer. *)
Lemma band_test_of_Z (a : Z) :
  lt (of_Z a) (of_Z 2800) || gt (of_Z a) (of_Z 3100)
  = (a <? 2800) || (3100 <? a).
Proof.
  unfold of_Z at 1 3.
  rewrite (lt_of_Z a 2800 false), (gt_of_Z a 3100 false);
    [reflexivity | split; reflexivity | split; reflexivity].
Qed.

Lemma outside_band (a : Z) :
  a < 2800 \/ 3100 < a ->
  lt (of_Z a) (of_Z 2800) || gt (of_Z a) (of_Z 3100) = true.
Proof.
  rewrite band_test_of_Z.
  intros [H | H]; apply orb_true_iff; [left | right]; now apply Z.ltb_lt.
Qed.

Lemma inside_band (a : Z) :
  2800 <= a <= 3100 ->
  lt (of_Z a) (of_Z 2800) || gt (of_Z a) (of_Z 3100) = false.
Proof.
  rewrite band_test_of_Z.
  intros [H1 H2]. apply orb_false_iff. split; apply Z.ltb_ge; lia.
Qed.

Lemma truthy_nonempty (e : string) : e <> "" -> truthy e = true.
Proof.
  destruct e; [congruence | reflexivity].
Qed.

(** C6: on a verified checkout-completed event, an amount outside
    [2800, 3100] is answered 200 with the event marked skipped and no email
    send; an amount inside the band with an email present leads to exactly
    one email send; an amount inside the band without an email is answered
    with a client error. *)
Theorem C6_amount_band (req : request) (s : session) (a : Z) :
  verified_checkout w req s ->
  to_number (amount_total s) = of_Z a ->
  (a < 2800 \/ 3100 < a ->
   fst (run (handler w req))
   = Normal (mkResponse 200 [] (Some [("received", JBool true); ("skipped", JBool true)])) /\
   email_sends (snd (run (handler w req))) = []) /\
  (2800 <= a <= 3100 ->
   forall e, buyer_email s = Some e -> e <> "" ->
   email_sends (snd (run (handler w req))) = [EmailSend (delivery_mail e)]) /\
  (2800 <= a <= 3100 ->
   truthy_opt (buyer_email s) = false ->
   fst (run (handler w req))
   = Normal (mkResponse 400 [] (Some [("error", JString "No customer email")])) /\
   email_sends (snd (run (handler w req))) = []).
Proof.
  intros Hv Ha. rewrite (run_handler_checkout req s Hv), Ha.
  split; [| split].
  - intros H. rewrite (outside_band a H). split; reflexivity.
  - intros H e He Hne. rewrite (inside_band a H), He.
    cbn [truthy_opt VerifyCrypto.str]. rewrite (truthy_nonempty e Hne).
    cbn [negb]. destruct (send w (delivery_mail e)); reflexivity.
  - intros H Hno. rewrite (inside_band a H), Hno. split; reflexivity.
Qed.

(** C2, as the code has it: on a verified checkout-completed event with an
    amount inside the band and an email present, a failing email send is
    answered with a 500 that carries "Failed to send email" and the
    failure's message; the 200 acknowledgment is given when the send
    succeeds. *)
Theorem C2_dispatch_failure_is_answered_500
  (req : request) (s : session) (a : Z) (e : string) :
  verified_checkout w req s ->
  to_number (amount_total s) = of_Z a ->
  2800 <= a <= 3100 ->
  buyer_email s = Some e ->
  e <> "" ->
  (forall err, send w (delivery_mail e) = Throw err ->
   run (handler w req)
   = (Normal (mkResponse 500 []
                (Some [("error", JString "Failed to send email");
                       ("details", JString (message err))])),
      [ConsoleLog "Checkout session:"; EmailSend (delivery_mail e);
       ConsoleError "Failed to send email:"])) /\
  (send w (delivery_mail e) = Normal tt ->
   run (handler w req)
   = (Normal (mkResponse 200 []
                (Some [("received", JBool true); ("emailSent", JBool true)])),
      [ConsoleLog "Checkout session:"; EmailSend (delivery_mail e);
       ConsoleLog "Download email sent to:"])).
Proof.
  intros Hv Ha Hband He Hne.
  rewrite (run_handler_checkout req s Hv), Ha.
  rewrite (inside_band a Hband), He.
  cbn [truthy_opt VerifyCrypto.str]. rewrite (truthy_nonempty e Hne).
  cbn [negb]. split.
  - intros err Hs. now rewrite Hs.
  - intros Hs. now rewrite Hs.
Qed.

End Claims.

End CardClaims.

(* ===================================================================== *)
(** * The properties on the sample inputs *)
(* ===================================================================== *)

Module Instances.

Import JSString JSNumber Regex Http Effects.

Ltac evaluate := vm_compute; reflexivity.
Ltac each_log :=
  repeat first [apply Forall_nil | apply Forall_cons; [evaluate |]].
Ltac is_accepted := unfold CryptoChecks.accepted; repeat split; evaluate.

Module Crypto.

Import VerifyCrypto CryptoChecks CryptoClaims Samples.Crypto.


(** A Transfer of 29,000,000 behind a foreign log and a Transfer of
    50,000,000 is valid with amount 29, and the handler answers 200. *)
Lemma C3_on_samples :
  let r := receipt_of [foreign_log; transfer_log data_50; transfer_log data_29] in
  verify_log env (transfer_log data_29) = Normal (Some (Valid (of_Z 29))) /\
  verifyUSDCTransfer env r = Normal (Valid (of_Z 29)) /\
  fst (run (handler env (world_of (Some r) (Normal tt)) request_ok))
  = Normal (mkResponse 200 cors_headers
              (Some [ ("success", JBool true);
                      ("downloadUrl", JString DOWNLOAD_URL);
                      ("thankYouUrl", JString THANK_YOU_URL);
                      ("message", JString "Payment verified! Your download is ready.") ])).
Proof.
  intros r.
  assert (H := C3_amount_within_band_is_valid env (transfer_log data_29) 29000000).
  destruct H as [Hlog Hr]; [evaluate | evaluate | lia |].
  destruct (Hr (world_of (Some r) (Normal tt)) request_ok buyer tx r
              [foreign_log; transfer_log data_50] []) as [Hv Hh];
    [is_accepted | evaluate | evaluate | evaluate | each_log |].
  split; [| split].
  - refine (eq_trans Hlog _). evaluate.
  - refine (eq_trans Hv _). evaluate.
  - exact Hh.
Defined.

(** A body without an email, a body whose hash has 63 digits (and whose
    email is malformed too), and a body whose email has no dot behind the
    at sign: each is refused with its own reason before any call. The body
    [null] is not refused: the handler throws. *)
Lemma C4_on_samples :
  run (handler env (world_of None (Normal tt)) (post None (Some tx)))
  = (Normal (respond 400 (error_body "Email and transaction hash are required")), []) /\
  run (handler env (world_of None (Normal tt))
         (post (Some "buyer at example") (Some "0x9f3c2b1a00112233445566778899aabbccddeeff00112233445566778899AAB")))
  = (Normal (respond 400 (error_body "Invalid transaction hash format")), []) /\
  run (handler env (world_of None (Normal tt)) (post (Some "buyer@example") (Some tx)))
  = (Normal (respond 400 (error_body "Invalid email format")), []) /\
  run (handler env (world_of None (Normal tt)) (mkRequest "POST" ParsedNull))
  = (Throw (Error "Cannot destructure property 'email' of 'body' as it is null."), []).
Proof.
  split; [| split; [| split]].
  - refine (proj1 (proj1 (C4_validation_order env (world_of None (Normal tt))
                     (post None (Some tx)) eq_refl)
                     (mkFields None (Some tx)) eq_refl) _).
    left. reflexivity.
  - refine (proj1 (proj2 (proj1 (C4_validation_order env (world_of None (Normal tt))
                     (post (Some "buyer at example") (Some "0x9f3c2b1a00112233445566778899aabbccddeeff00112233445566778899AAB"))
                     eq_refl)
                     (mkFields (Some "buyer at example") (Some "0x9f3c2b1a00112233445566778899aabbccddeeff00112233445566778899AAB"))
                     eq_refl))
              "buyer at example" "0x9f3c2b1a00112233445566778899aabbccddeeff00112233445566778899AAB"
              eq_refl _ eq_refl _ _);
      [discriminate | discriminate | evaluate].
  - refine (proj2 (proj2 (proj1 (C4_validation_order env (world_of None (Normal tt))
                     (post (Some "buyer@example") (Some tx)) eq_refl)
                     (mkFields (Some "buyer@example") (Some tx)) eq_refl))
              "buyer@example" tx eq_refl _ eq_refl _ _);
      [discriminate | evaluate | evaluate].
  - refine (proj1 (proj2 (C4_validation_order env (world_of None (Normal tt))
                     (mkRequest "POST" ParsedNull) eq_refl)) eq_refl).
Defined.

(** The three checks on the sample logs: the Transfer to the wallet gets a
    verdict and passes each check, and the logs that fail one are skipped.
    Of two Transfers to the wallet behind a foreign log, the first one
    decides, in either order; with skipped logs only, nothing is found. *)
Lemma C5_on_samples :
  (emitter_is_token (transfer_log data_29) = true /\
   first_topic_is_transfer (transfer_log data_29) = true /\
   (wallet_configured env = true ->
    destination_is_wallet env (transfer_log data_29) = true)) /\
  destination to_wallet = "0xABCDEF0000000000000000000000000000000001" /\
  verify_log env foreign_log = Normal None /\
  verify_log env (elsewhere_log data_29) = Normal None /\
  verifyUSDCTransfer env
    (receipt_of [foreign_log; elsewhere_log data_29; transfer_log data_29])
  = verifyUSDCTransfer env (receipt_of [transfer_log data_29]) /\
  verifyUSDCTransfer env
    (receipt_of [foreign_log; transfer_log data_29; transfer_log data_27])
  = Normal (Valid (of_Z 29)) /\
  verifyUSDCTransfer env
    (receipt_of [foreign_log; transfer_log data_27; transfer_log data_29])
  = Normal (Invalid "Payment amount ($27.00) is below the required amount.") /\
  verifyUSDCTransfer env (receipt_of [foreign_log; elsewhere_log data_29])
  = Normal (Invalid
      "No valid USDC transfer found in this transaction. Please check the transaction hash.").
Proof.
  split; [| split; [| split; [| split; [| split; [| split; [| split]]]]]].
  - refine (proj1 (C5_checks_of_the_scan env (transfer_log data_29))
              (Valid (of_Z 29)) _).
    evaluate.
  - refine (eq_trans
              (proj1 (proj2 (C5_checks_of_the_scan env (transfer_log data_29)))
                 to_wallet eq_refl eq_refl) _).
    evaluate.
  - refine (proj1 (proj2 (proj2 (C5_checks_of_the_scan env foreign_log))) _).
    evaluate.
  - refine (proj1 (proj2 (proj2 (proj2 (proj2
              (C5_checks_of_the_scan env (elsewhere_log data_29))))))
              to_other eq_refl _ _); evaluate.
  - refine (proj1 (proj2 (proj2 (proj2 (proj2 (proj2
              (C5_checks_of_the_scan env foreign_log))))))
              "0x1" [foreign_log; elsewhere_log data_29] [transfer_log data_29] _).
    each_log.
  - refine (proj1 (proj1 (proj2 (proj2 (proj2 (proj2 (proj2 (proj2
              (C5_checks_of_the_scan env (transfer_log data_29))))))))
              "0x1" [foreign_log] [transfer_log data_27] _)
              (Valid (of_Z 29)) _); [each_log | evaluate].
  - refine (proj1 (proj1 (proj2 (proj2 (proj2 (proj2 (proj2 (proj2
              (C5_checks_of_the_scan env (transfer_log data_27))))))))
              "0x1" [foreign_log] [transfer_log data_29] _)
              (Invalid "Payment amount ($27.00) is below the required amount.") _);
      [each_log | evaluate].
  - refine (proj2 (proj2 (proj2 (proj2 (proj2 (proj2 (proj2
              (C5_checks_of_the_scan env foreign_log)))))))
              "0x1" [foreign_log; elsewhere_log data_29] _).
    each_log.
Defined.

(** No receipt, and a receipt of a reverted transaction that carries a
    valid Transfer: both are answered 400 after the lookup alone. *)
Lemma C7_on_samples :
  run (handler env (world_of None (Normal tt)) request_ok)
  = (Normal (respond 400 (error_body
       "Transaction not found or failed. Please check the hash and try again.")),
     [RpcPost "https://mainnet.base.org" "eth_getTransactionReceipt" [tx]]) /\
  run (handler env
         (world_of (Some (mkReceipt "0x0" (Some [transfer_log data_29]))) (Normal tt))
         request_ok)
  = (Normal (respond 400 (error_body
       "Transaction not found or failed. Please check the hash and try again.")),
     [RpcPost "https://mainnet.base.org" "eth_getTransactionReceipt" [tx]]).
Proof.
  split.
  - refine (C7_missing_or_failed_receipt env (world_of None (Normal tt))
              request_ok buyer tx _ _); [is_accepted |].
    left. reflexivity.
  - refine (C7_missing_or_failed_receipt env
              (world_of (Some (mkReceipt "0x0" (Some [transfer_log data_29]))) (Normal tt))
              request_ok buyer tx _ _); [is_accepted |].
    right. exists (mkReceipt "0x0" (Some [transfer_log data_29])).
    split; [reflexivity | discriminate].
Defined.

(** A receipt without logs, and a receipt whose logs are a foreign log and
    a Transfer of 50,000,000: no valid transfer, answered 400. *)
Lemma C8_on_samples :
  run (handler env (world_of (Some (mkReceipt "0x1" None)) (Normal tt)) request_ok)
  = (Normal (respond 400 (error_body
       "No valid USDC transfer found in this transaction. Please check the transaction hash.")),
     [RpcPost "https://mainnet.base.org" "eth_getTransactionReceipt" [tx]]) /\
  run (handler env
         (world_of (Some (receipt_of [foreign_log; transfer_log data_50])) (Normal tt))
         request_ok)
  = (Normal (respond 400 (error_body
       "No valid USDC transfer found in this transaction. Please check the transaction hash.")),
     [RpcPost "https://mainnet.base.org" "eth_getTransactionReceipt" [tx]]).
Proof.
  split.
  - refine (proj2 (C8_no_valid_transfer env
              (world_of (Some (mkReceipt "0x1" None)) (Normal tt))
              request_ok buyer tx (mkReceipt "0x1" None) _ eq_refl eq_refl _));
      [is_accepted | discriminate].
  - refine (proj2 (C8_no_valid_transfer env
              (world_of (Some (receipt_of [foreign_log; transfer_log data_50])) (Normal tt))
              request_ok buyer tx (receipt_of [foreign_log; transfer_log data_50])
              _ eq_refl eq_refl _)); [is_accepted |].
    intros ls Hls. injection Hls as <-. each_log.
Defined.

(** The email service is down: the buyer still gets the 200 with the
    download link. *)
Lemma C9_on_samples :
  run (handler env
         (world_of (Some (receipt_of [transfer_log data_29])) mail_down) request_ok)
  = (Normal (mkResponse 200 cors_headers
               (Some [ ("success", JBool true);
                       ("downloadUrl", JString DOWNLOAD_URL);
                       ("thankYouUrl", JString THANK_YOU_URL);
                       ("message", JString "Payment verified! Your download is ready.") ])),
     [RpcPost "https://mainnet.base.org" "eth_getTransactionReceipt" [tx];
      EmailSend (delivery_mail buyer);
      ConsoleError "Email send failed (returning link anyway):"]).
Proof.
  refine (C9_email_failure_does_not_block env
            (world_of (Some (receipt_of [transfer_log data_29])) mail_down)
            request_ok buyer tx (receipt_of [transfer_log data_29]) (of_Z 29)
            (Error "service unavailable") _ eq_refl eq_refl _ eq_refl);
    [is_accepted | evaluate].
Defined.

(** A Transfer log of the token with two topics, reached behind a foreign
    log: the scan throws and the handler answers 500. *)
Lemma C10_on_samples :
  let r := receipt_of [foreign_log; short_log; transfer_log data_29] in
  verify_log env short_log = Throw slice_of_undefined /\
  verifyUSDCTransfer env r = Throw slice_of_undefined /\
  run (handler env (world_of (Some r) (Normal tt)) request_ok)
  = (Normal (respond 500 (error_body
       "Verification failed. Please email felix@masinov.co with your transaction hash.")),
     [RpcPost "https://mainnet.base.org" "eth_getTransactionReceipt" [tx];
      ConsoleError "Verification error:"]).
Proof.
  intros r.
  assert (H := C10_missing_third_topic_is_a_server_error env short_log
                 [TRANSFER_TOPIC; sender]).
  destruct H as [Hlog Hr]; [evaluate | evaluate | reflexivity | simpl; lia |].
  split; [exact Hlog |].
  refine (Hr (world_of (Some r) (Normal tt)) request_ok buyer tx r
            [foreign_log] [transfer_log data_29] _ _ _ _ _);
    [is_accepted | evaluate | evaluate | evaluate | each_log].
Defined.

(** ** Receipts with a Transfer log of the token that has two topics *)


(** Without a configured wallet the two-topic Transfer log of 29,000,000
    passes the emitter and topic checks, and no destination check applies;
    its amount is within the band. Yet it is not valid: the verification
    throws and the handler answers 500. With the wallet configured, the
    Transfer of 29,000,000 behind the two-topic log is the first log that
    passes the three checks, and the answer is 500 as well. *)
Lemma C3_two_topic_transfer_in_band :
  wallet_configured env_open = false /\
  emitter_is_token short_log = true /\
  first_topic_is_transfer short_log = true /\
  decoded short_log = Some 29000000 /\
  verify_log env_open short_log = Throw slice_of_undefined /\
  fst (run (handler env_open
              (world_of (Some (receipt_of [short_log])) (Normal tt)) request_ok))
  = Normal (respond 500 (error_body
      "Verification failed. Please email felix@masinov.co with your transaction hash.")) /\
  matching env short_log = false /\
  matching env (transfer_log data_29) = true /\
  decoded (transfer_log data_29) = Some 29000000 /\
  fst (run (handler env
              (world_of (Some (receipt_of [short_log; transfer_log data_29])) (Normal tt))
              request_ok))
  = Normal (respond 500 (error_body
      "Verification failed. Please email felix@masinov.co with your transaction hash.")).
Proof.
  repeat split; evaluate.
Qed.

(** With the wallet configured, the two-topic Transfer log fails the
    destination check: it has no third topic whose low 20 bytes could equal
    the wallet. Yet it is not skipped: the scan throws at it, and the
    Transfer of 29,000,000 behind it is never reached. *)
Lemma C5_short_log_is_not_skipped :
  wallet_configured env = true /\
  emitter_is_token short_log = true /\
  first_topic_is_transfer short_log = true /\
  third_topic short_log = None /\
  destination_is_wallet env short_log = false /\
  verify_log env short_log = Throw slice_of_undefined /\
  verifyUSDCTransfer env (receipt_of [short_log; transfer_log data_29])
  = Throw slice_of_undefined /\
  verifyUSDCTransfer env (receipt_of [transfer_log data_29])
  = Normal (Valid (of_Z 29)).
Proof.
  repeat split; evaluate.
Qed.

(** In the receipt whose only log is the two-topic Transfer log, no log
    passes the three checks with the wallet configured. Yet the
    verification does not return the no-valid-transfer refusal: it throws,
    and the handler answers 500, not 400. *)
Lemma C8_short_log_alone :
  wallet_configured env = true /\
  destination_is_wallet env short_log = false /\
  matching env short_log = false /\
  verifyUSDCTransfer env (receipt_of [short_log]) = Throw slice_of_undefined /\
  run (handler env (world_of (Some (receipt_of [short_log])) (Normal tt)) request_ok)
  = (Normal (respond 500 (error_body
       "Verification failed. Please email felix@masinov.co with your transaction hash.")),
     [RpcPost "https://mainnet.base.org" "eth_getTransactionReceipt" [tx];
      ConsoleError "Verification error:"]).
Proof.
  repeat split; evaluate.
Qed.

(** The receipt contains the two-topic Transfer log of the token, behind a
    Transfer of 29,000,000 to the wallet. The scan returns at the first
    log and never takes the destination of the second: nothing throws, and
    the handler answers 200 with the success body, not 500. *)
Lemma C10_verdict_in_front_of_the_short_log :
  emitter_is_token short_log = true /\
  first_topic_is_transfer short_log = true /\
  topics short_log = Some [TRANSFER_TOPIC; sender] /\
  verifyUSDCTransfer env (receipt_of [transfer_log data_29; short_log])
  = Normal (Valid (of_Z 29)) /\
  fst (run (handler env
              (world_of (Some (receipt_of [transfer_log data_29; short_log])) (Normal tt))
              request_ok))
  = Normal (respond 200 success_body).
Proof.
  repeat split; evaluate.
Qed.

End Crypto.

Module Card.

Import StripeWebhook CardChecks CardClaims Samples.Card.

(** A checkout of 2900 units with an email, while the email service is
    down: the handler answers 500, not 200. *)
Lemma C2_email_failure_changes_the_answer :
  let s := checkout (cents 2900) (Some "buyer@example.com") in
  let w := world_of s mail_down in
  verified_checkout w request_ok s /\
  amount_total s = cents 2900 /\
  buyer_email s = Some "buyer@example.com" /\
  send w (delivery_mail "buyer@example.com") = Throw (Error "service unavailable") /\
  fst (run (handler w request_ok))
  = Normal (mkResponse 500 []
              (Some [("error", JString "Failed to send email");
                     ("details", JString "service unavailable")])).
Proof.
  repeat split.
Qed.

Lemma C2_on_samples :
  let s := checkout (cents 2900) (Some "buyer@example.com") in
  run (handler (world_of s mail_down) request_ok)
  = (Normal (mkResponse 500 []
               (Some [("error", JString "Failed to send email");
                      ("details", JString "service unavailable")])),
     [ConsoleLog "Checkout session:";
      EmailSend (delivery_mail "buyer@example.com");
      ConsoleError "Failed to send email:"]).
Proof.
  intros s.
  refine (proj1 (C2_dispatch_failure_is_answered_500 (world_of s mail_down)
                   request_ok s 2900 "buyer@example.com" _ eq_refl _ eq_refl _)
            (Error "service unavailable") eq_refl);
    [split; reflexivity | lia | discriminate].
Defined.

(** Checkouts of 2799 and 3101 units are skipped without an email; one of
    3100 units leads to one send; one of 2800 units without any email is a
    client error. *)
Lemma C6_on_samples :
  (fst (run (handler (world_of (checkout (cents 2799) (Some "buyer@example.com")) (Normal tt))
               request_ok))
   = Normal (mkResponse 200 [] (Some [("received", JBool true); ("skipped", JBool true)])) /\
   email_sends (snd (run (handler
       (world_of (checkout (cents 2799) (Some "buyer@example.com")) (Normal tt))
       request_ok))) = []) /\
  email_sends (snd (run (handler
      (world_of (checkout (cents 3100) (Some "buyer@example.com")) (Normal tt))
      request_ok))) = [EmailSend (delivery_mail "buyer@example.com")] /\
  (fst (run (handler (world_of (checkout (cents 2800) None) (Normal tt)) request_ok))
   = Normal (mkResponse 400 [] (Some [("error", JString "No customer email")])) /\
   email_sends (snd (run (handler (world_of (checkout (cents 2800) None) (Normal tt))
                           request_ok))) = []).
Proof.
  split; [| split].
  - refine (proj1 (C6_amount_band _ request_ok
              (checkout (cents 2799) (Some "buyer@example.com")) 2799 _ eq_refl) _);
      [split; reflexivity | left; lia].
  - refine (proj1 (proj2 (C6_amount_band _ request_ok
              (checkout (cents 3100) (Some "buyer@example.com")) 3100 _ eq_refl))
              _ "buyer@example.com" eq_refl _);
      [split; reflexivity | lia | discriminate].
  - refine (proj2 (proj2 (C6_amount_band _ request_ok
              (checkout (cents 2800) None) 2800 _ eq_refl)) _ eq_refl);
      [split; reflexivity | lia].
Defined.

End Card.

End Instances.

(* ===================================================================== *)
(** * Every outcome of the log scan *)
(* ===================================================================== *)

Module ScanCases.

Import JSString JSNumber Regex Http Effects VerifyCrypto CryptoChecks.
Import NumberFacts ScanFacts.

(** A decoded amount that is neither within the band nor below it lies
    above it, or there is no amount. *)
Lemma neither_within_nor_below (l : log) :
  within_band l = false -> below_minimum l = false ->
  above_maximum l || not_a_number l = true.
Proof.
  unfold within_band, below_minimum, above_maximum, not_a_number.
  destruct (decoded l) as [n |]; [| reflexivity].
  intros Hw Hb. rewrite orb_false_r. apply Z.ltb_lt.
  apply Z.ltb_ge in Hb. apply andb_false_iff in Hw.
  destruct Hw as [Hw | Hw]; apply Z.leb_gt in Hw; lia.
Qed.

Lemma within_band_decoded (l : log) :
  within_band l = true ->
  exists n, decoded l = Some n /\ 28000000 <= n <= 35000000.
Proof.
  unfold within_band. destruct (decoded l) as [n |]; [| discriminate].
  intros H. apply andb_true_iff in H. destruct H as [H1 H2].
  apply Z.leb_le in H1, H2. now exists n.
Qed.

Lemma below_minimum_decoded (l : log) :
  below_minimum l = true -> exists n, decoded l = Some n /\ n < 28000000.
Proof.
  unfold below_minimum. destruct (decoded l) as [n |]; [| discriminate].
  intros H. apply Z.ltb_lt in H. now exists n.
Qed.

Section Cases.

Variable env : environment.

(** What passing the three checks means. *)
Lemma matching_checks (l : log) :
  matching env l = true ->
  emitter_is_token l = true /\
  first_topic_is_transfer l = true /\
  (exists t2, third_topic l = Some t2) /\
  (wallet_configured env = true -> destination_is_wallet env l = true).
Proof.
  unfold matching.
  destruct (emitter_is_token l); [| discriminate].
  destruct (first_topic_is_transfer l); [| discriminate].
  destruct (third_topic l) as [t2 |]; [| discriminate].
  cbn [andb]. intros H. repeat split; [now exists t2 |].
  intros Hw. rewrite Hw in H. exact H.
Qed.

(** The four things one turn of the loop can do. *)
Lemma verify_log_outcomes (l : log) :
  (passed_over env l = true /\ verify_log env l = Normal None) \/
  (lacks_destination l = true /\ verify_log env l = Throw slice_of_undefined) \/
  (matching env l = true /\ within_band l = true /\
   verify_log env l
   = Normal (Some (Valid (div (amount_of l) (of_Z 1000000))))) \/
  (matching env l = true /\ below_minimum l = true /\
   verify_log env l = Normal (Some (Invalid (below_reason (amount_of l))))).
Proof.
  destruct (log_kinds env l) as [(Hr & _ & _) | [(_ & Hm & _) | (_ & _ & Hl)]].
  - left. split; [now apply rejected_passed_over | now apply verify_log_rejected].
  - rewrite (verify_log_matching env l Hm).
    destruct (within_band l) eqn:Hw; [right; right; left; now repeat split |].
    destruct (below_minimum l) eqn:Hb; [right; right; right; now repeat split |].
    left. split; [| reflexivity].
    unfold passed_over. rewrite Hm, (neither_within_nor_below l Hw Hb).
    apply orb_true_r.
  - right. left. split; [exact Hl | now apply verify_log_lacks_destination].
Qed.

(** The scan either passes over every log, or stops at the first log it
    does not pass over, with what the loop does on that log. *)
Lemma scan_outcomes (ls : list log) (after : completion transfer) :
  (Forall (fun x => passed_over env x = true) ls /\
   for_of (verify_log env) ls after = after) \/
  (exists pre l post,
     ls = (pre ++ l :: post)%list /\
     Forall (fun x => passed_over env x = true) pre /\
     verify_log env l <> Normal None /\
     for_of (verify_log env) ls after
     = match verify_log env l with
       | Throw e => Throw e
       | Normal (Some t) => Normal t
       | Normal None => after
       end).
Proof.
  induction ls as [| x ls IH].
  - left. split; [constructor | reflexivity].
  - destruct (verify_log_outcomes x) as [[Hp Hx] | Hx].
    + destruct IH as [[Hall Hfor] | (pre & l & post & -> & Hpre & Hne & Hfor)].
      * left. split; [now constructor |]. cbn [for_of]. now rewrite Hx.
      * right. exists (x :: pre), l, post. repeat split.
        -- now constructor.
        -- exact Hne.
        -- cbn [app for_of]. now rewrite Hx.
    + right. exists [], x, ls. cbn [app for_of].
      destruct Hx as [[_ Hx] | [(_ & _ & Hx) | (_ & _ & Hx)]]; rewrite Hx;
        (repeat split; [constructor | discriminate]).
Qed.

(** The same for a receipt. *)
Lemma verify_outcomes (r : receipt) :
  ((forall ls, logs r = Some ls ->
      Forall (fun x => passed_over env x = true) ls) /\
   verifyUSDCTransfer env r = Normal (Invalid no_transfer_reason)) \/
  (exists pre l post,
     logs r = Some (pre ++ l :: post)%list /\
     Forall (fun x => passed_over env x = true) pre /\
     verify_log env l <> Normal None /\
     verifyUSDCTransfer env r
     = match verify_log env l with
       | Throw e => Throw e
       | Normal (Some t) => Normal t
       | Normal None => Normal (Invalid no_transfer_reason)
       end).
Proof.
  unfold verifyUSDCTransfer. destruct (logs r) as [ls |].
  - destruct (scan_outcomes ls (Normal (Invalid no_transfer_reason)))
      as [[Hall Hfor] | (pre & l & post & -> & Hpre & Hne & Hfor)].
    + left. split; [| exact Hfor]. intros ls' E. now injection E as <-.
    + right. exists pre, l, post. now repeat split.
  - left. split; [discriminate | reflexivity].
Qed.

End Cases.

End ScanCases.

(* ===================================================================== *)
(** * Further properties of the crypto verifier *)
(* ===================================================================== *)

Module CryptoMore.

Import JSString JSNumber Regex Http Effects VerifyCrypto CryptoChecks MoreChecks.
Import RegexFacts NumberFacts ScanFacts HandlerFacts ScanCases.

(** A valid verdict comes from a log that passes the checks with an amount
    within the band, reached behind logs that are passed over. *)
Lemma valid_has_transfer (env : environment) (r : receipt) (a : number) :
  verifyUSDCTransfer env r = Normal (Valid a) ->
  exists pre l post n,
    logs r = Some (pre ++ l :: post)%list /\
    Forall (fun x => passed_over env x = true) pre /\
    matching env l = true /\
    decoded l = Some n /\ 28000000 <= n <= 35000000 /\
    a = div (of_Z n) (of_Z 1000000).
Proof.
  intros Hv.
  destruct (verify_outcomes env r) as [[_ H] | (pre & l & post & Hl & Hpre & Hne & H)];
    [congruence |].
  rewrite H in Hv.
  destruct (verify_log_outcomes env l)
    as [[_ Hx] | [[_ Hx] | [(Hm & Hw & Hx) | (_ & _ & Hx)]]];
    [now elim Hne | | |]; rewrite Hx in Hv; try discriminate.
  destruct (within_band_decoded l Hw) as (n & Hn & Hband).
  exists pre, l, post, n. repeat split; try assumption; try lia.
  rewrite (amount_of_nonzero l n Hn) in Hv by lia. congruence.
Qed.

(** Unless the request is accepted, the handler ends before the lookup,
    with no call and no console output: it refuses the request, or, on a
    POST whose body parsed to [null], it throws. *)
Lemma refused_or_accepted (env : environment) (w : world) (req : request) :
  (exists e h, accepted req e h) \/
  (null_post req /\
   run (handler env w req) = (Throw destructure_of_null, [])) \/
  (exists resp,
     run (handler env w req) = (Normal resp, []) /\
     headers resp = cors_headers /\
     body resp <> Some success_body /\
     (status_code resp = 200 \/ status_code resp = 405 \/ status_code resp = 400)).
Proof.
  unfold handler.
  destruct (String.eqb (method req) "OPTIONS") eqn:Eo.
  { right. right. eexists. repeat split; [discriminate | now left]. }
  destruct (String.eqb (method req) "POST") eqn:Ep; cbn [negb].
  2:{ right. right. eexists. repeat split; [discriminate | right; now left]. }
  apply String.eqb_eq in Ep.
  destruct (parsed req) as [| | [me mh]] eqn:Eb.
  { right. right. eexists. repeat split; [discriminate | right; now right]. }
  { right. left. now repeat split. }
  cbn [email txHash].
  destruct (truthy_opt me) eqn:Te; cbn [negb orb].
  2:{ right. right. eexists. repeat split; [discriminate | right; now right]. }
  destruct (truthy_opt mh) eqn:Th; cbn [negb].
  2:{ right. right. eexists. repeat split; [discriminate | right; now right]. }
  destruct me as [e |]; [| discriminate Te].
  destruct mh as [h |]; [| discriminate Th].
  cbn [str].
  destruct (test txHash_pattern h) eqn:Hh; cbn [negb].
  2:{ right. right. eexists. repeat split; [discriminate | right; now right]. }
  destruct (test email_pattern e) eqn:He; cbn [negb].
  2:{ right. right. eexists. repeat split; [discriminate | right; now right]. }
  left. exists e, h. now repeat split.
Qed.

(** An accepted request determines its email and its hash. *)
Lemma accepted_unique (req : request) (e h e' h' : string) :
  accepted req e h -> accepted req e' h' -> e = e' /\ h = h'.
Proof.
  intros (_ & Hp & _) (_ & Hp' & _). rewrite Hp in Hp'.
  injection Hp' as -> ->. now split.
Qed.

Section More.

Variable env : environment.

(** X1: a verdict of valid is given only for a receipt that holds a log
    whose emitter is the token contract, whose first topic is the Transfer
    signature, whose destination is the configured wallet (when one is
    configured) and whose data decodes to an amount within
    [28,000,000, 35,000,000]; every log before it was passed over, and the
    amount reported is that amount divided by 1,000,000. *)
Theorem X1_valid_only_for_a_qualifying_transfer (r : receipt) (a : number) :
  verifyUSDCTransfer env r = Normal (Valid a) ->
  exists pre l post n,
    logs r = Some (pre ++ l :: post)%list /\
    Forall (fun x => passed_over env x = true) pre /\
    emitter_is_token l = true /\
    first_topic_is_transfer l = true /\
    (wallet_configured env = true -> destination_is_wallet env l = true) /\
    decoded l = Some n /\ 28000000 <= n <= 35000000 /\
    a = div (of_Z n) (of_Z 1000000).
Proof.
  intros Hv.
  destruct (valid_has_transfer env r a Hv)
    as (pre & l & post & n & Hl & Hpre & Hm & Hn & Hband & Ha).
  destruct (matching_checks env l Hm) as (He & Ht & _ & Hd).
  exists pre, l, post, n. now repeat split.
Qed.

(** X2: a refusal carries one of two reasons: the no-valid-transfer reason,
    when every log was passed over, or the amount-below-required reason of
    the first log that was not passed over, which then passes the checks
    and decodes to an amount below 28,000,000. *)
Theorem X2_the_two_refusals (r : receipt) (reason : string) :
  verifyUSDCTransfer env r = Normal (Invalid reason) ->
  (reason = "No valid USDC transfer found in this transaction. Please check the transaction hash."
   /\ forall ls, logs r = Some ls ->
                 Forall (fun x => passed_over env x = true) ls) \/
  (exists pre l post n,
     logs r = Some (pre ++ l :: post)%list /\
     Forall (fun x => passed_over env x = true) pre /\
     matching env l = true /\
     decoded l = Some n /\ n < 28000000 /\
     reason = below_reason (amount_of l)).
Proof.
  intros Hv.
  destruct (verify_outcomes env r) as [[Hall H] | (pre & l & post & Hl & Hpre & Hne & H)].
  - left. rewrite H in Hv. injection Hv as <-. now split.
  - right. rewrite H in Hv.
    destruct (verify_log_outcomes env l)
      as [[_ Hx] | [[_ Hx] | [(_ & _ & Hx) | (Hm & Hb & Hx)]]];
      [now elim Hne | | |]; rewrite Hx in Hv; try discriminate.
    destruct (below_minimum_decoded l Hb) as (n & Hn & Hlt).
    exists pre, l, post, n. repeat split; try assumption. congruence.
Qed.

(** X3: the verification throws only at a Transfer log of the token that
    has fewer than three topics, reached behind logs that are passed over;
    on a receipt without such a log it always returns a verdict, and the
    handler answers an accepted request for it with 200 or 400, never with
    500. *)
Theorem X3_only_a_short_transfer_log_throws (r : receipt) :
  (forall err, verifyUSDCTransfer env r = Throw err ->
     err = slice_of_undefined /\
     exists pre l post,
       logs r = Some (pre ++ l :: post)%list /\
       Forall (fun x => passed_over env x = true) pre /\
       lacks_destination l = true) /\
  (transfers_well_formed r ->
     (exists t, verifyUSDCTransfer env r = Normal t) /\
     forall w req e h,
       accepted req e h ->
       rpc w (rpcUrl env) h = Normal (Some r) ->
       exists resp, fst (run (handler env w req)) = Normal resp /\
                    (status_code resp = 200 \/ status_code resp = 400)).
Proof.
  assert (Hthrow : forall err, verifyUSDCTransfer env r = Throw err ->
     err = slice_of_undefined /\
     exists pre l post,
       logs r = Some (pre ++ l :: post)%list /\
       Forall (fun x => passed_over env x = true) pre /\
       lacks_destination l = true).
  { intros err Hv.
    destruct (verify_outcomes env r) as [[_ H] | (pre & l & post & Hl & Hpre & Hne & H)];
      [congruence |].
    rewrite H in Hv.
    destruct (verify_log_outcomes env l)
      as [[_ Hx] | [[Hlack Hx] | [(_ & _ & Hx) | (_ & _ & Hx)]]];
      [now elim Hne | | |]; rewrite Hx in Hv; try discriminate.
    injection Hv as <-. split; [reflexivity |]. now exists pre, l, post. }
  split; [exact Hthrow |].
  intros Hwf.
  assert (Hverdict : exists t, verifyUSDCTransfer env r = Normal t).
  { destruct (verifyUSDCTransfer env r) as [t | err] eqn:Hv; [now exists t |].
    destruct (Hthrow err eq_refl) as (_ & pre & l & post & Hl & _ & Hlack).
    pose proof (Hwf _ Hl) as Hall. apply Forall_app in Hall.
    destruct Hall as [_ Hall]. inversion Hall; subst. congruence. }
  split; [exact Hverdict |].
  intros w req e h Hacc Hrpc. destruct Hverdict as (t & Hv).
  rewrite (run_handler_accepted env w req e h Hacc), Hrpc, Hv.
  destruct (String.eqb (status r) "0x1"); [| eexists; split; [reflexivity | now right]].
  destruct t; eexists; (split; [reflexivity |]); [now left | now right].
Qed.

(** X4: when no receiving wallet is configured (the variable is unset or
    empty), the destination is not checked: a Transfer log of the token
    with an amount within the band is valid whatever its third topic. *)
Theorem X4_no_wallet_no_destination_check (l : log) (t2 : string) (n : Z) :
  CRYPTO_RECEIVING_WALLET env = None \/ CRYPTO_RECEIVING_WALLET env = Some "" ->
  emitter_is_token l = true ->
  first_topic_is_transfer l = true ->
  third_topic l = Some t2 ->
  decoded l = Some n ->
  28000000 <= n <= 35000000 ->
  verify_log env l = Normal (Some (Valid (div (of_Z n) (of_Z 1000000)))).
Proof.
  intros Hw He Ht H3 Hn Hband.
  assert (Hc : wallet_configured env = false).
  { unfold wallet_configured, wallet. now destruct Hw as [-> | ->]. }
  assert (Hm : matching env l = true).
  { unfold matching. now rewrite He, Ht, H3, Hc. }
  rewrite (verify_log_matching env l Hm).
  assert (Hwb : within_band l = true).
  { unfold within_band. rewrite Hn. apply andb_true_iff.
    split; apply Z.leb_le; lia. }
  rewrite Hwb, (amount_of_nonzero l n Hn) by lia. reflexivity.
Qed.

(** X5: when the configured wallet does not start with [0x] (in either
    case of the x), no log ever passes the destination check: whatever the
    receipt, the verification returns the no-valid-transfer refusal or
    throws, and never a valid verdict. *)
Theorem X5_wallet_without_0x_matches_nothing (r : receipt) :
  wallet_configured env = true ->
  starts_with_0x (toLowerCase (wallet env)) = false ->
  verifyUSDCTransfer env r
  = Normal (Invalid
      "No valid USDC transfer found in this transaction. Please check the transaction hash.") \/
  verifyUSDCTransfer env r = Throw slice_of_undefined.
Proof.
  intros Hc Hp.
  assert (Hno : forall l, matching env l = false).
  { intros l. unfold matching, destination_is_wallet.
    destruct (emitter_is_token l); [| reflexivity].
    destruct (first_topic_is_transfer l); [| reflexivity].
    destruct (third_topic l) as [t2 |]; [| reflexivity].
    rewrite Hc. cbn [andb negb orb].
    unfold same_ignoring_case. rewrite toLowerCase_destination.
    apply String.eqb_neq. intros E. rewrite <- E in Hp. discriminate Hp. }
  destruct (verify_outcomes env r) as [[_ H] | (pre & l & post & _ & _ & Hne & H)];
    [now left |].
  destruct (verify_log_outcomes env l)
    as [[_ Hx] | [[_ Hx] | [(Hm & _) | (Hm & _)]]].
  - congruence.
  - right. now rewrite H, Hx.
  - rewrite Hno in Hm. discriminate.
  - rewrite Hno in Hm. discriminate.
Qed.

(** X6: the two tests of the loop on the amount, which compare binary64
    Numbers, decide by the integer that the data denotes, however long the
    data is: the band test holds exactly when that integer lies within
    [28,000,000, 35,000,000] and the below test exactly when it is below
    28,000,000; rounding an integer to a Number never moves it across a
    bound. *)
Theorem X6_amount_tests_decide_on_the_integer (l : log) :
  (ge (amount_of l) MIN_AMOUNT && le (amount_of l) MAX_AMOUNT = true <->
   exists n, decoded l = Some n /\ 28000000 <= n <= 35000000) /\
  (lt (amount_of l) MIN_AMOUNT = true <->
   exists n, decoded l = Some n /\ n < 28000000) /\
  (forall (n : Z) (neg : bool),
     ge (of_Z_signed n neg) MIN_AMOUNT && le (of_Z_signed n neg) MAX_AMOUNT
     = (28000000 <=? n) && (n <=? 35000000) /\
     lt (of_Z_signed n neg) MIN_AMOUNT = (n <? 28000000)).
Proof.
  split; [| split].
  - rewrite within_band_test. split; [apply within_band_decoded |].
    intros (n & Hn & Hband). unfold within_band. rewrite Hn.
    apply andb_true_iff. split; apply Z.leb_le; lia.
  - rewrite below_minimum_test. split; [apply below_minimum_decoded |].
    intros (n & Hn & Hlt). unfold below_minimum. rewrite Hn.
    now apply Z.ltb_lt.
  - intros n neg. unfold MIN_AMOUNT, MAX_AMOUNT.
    now rewrite (ge_of_Z n _ neg bound_MIN), (le_of_Z n _ neg bound_MAX),
      (lt_of_Z n _ neg bound_MIN).
Qed.

End More.

End CryptoMore.

(* ===================================================================== *)
(** * Further properties of the crypto handler *)
(* ===================================================================== *)

Module CryptoHandlerMore.

Import JSString JSNumber Regex Http Effects VerifyCrypto CryptoChecks MoreChecks.
Import RegexFacts NumberFacts ScanFacts HandlerFacts ScanCases CryptoMore.

Lemma count_char_append (c : ascii) (s1 s2 : string) :
  count_char c (s1 ++ s2) = (count_char c s1 + count_char c s2)%nat.
Proof.
  induction s1 as [| c1 s1 IH]; [reflexivity |].
  cbn. destruct (Ascii.eqb c c1); cbn; now rewrite IH.
Qed.

Lemma all_chars_append (p : ascii -> bool) (s1 s2 : string) :
  all_chars p (s1 ++ s2) = all_chars p s1 && all_chars p s2.
Proof.
  induction s1 as [| c1 s1 IH]; [reflexivity |].
  cbn. now rewrite IH, andb_assoc.
Qed.

(** An address part holds no at sign and no white space. *)
Lemma address_part_clean (s : string) :
  all_chars not_space_or_at s = true ->
  count_char "@" s = 0%nat /\ no_white_space s = true.
Proof.
  unfold no_white_space. induction s as [| c s IH]; [now split |].
  intros H.
  change (not_space_or_at c && all_chars not_space_or_at s = true) in H.
  apply andb_true_iff in H. destruct H as [Hc Hs].
  destruct (IH Hs) as [IH1 IH2]. unfold not_space_or_at in Hc.
  apply negb_true_iff, orb_false_iff in Hc. destruct Hc as [Hsp Hat].
  rewrite Ascii.eqb_sym in Hat.
  change (count_char "@" (String c s))
    with (if Ascii.eqb "@" c then S (count_char "@" s) else count_char "@" s).
  change (all_chars (fun c => negb (is_space c)) (String c s))
    with (negb (is_space c) && all_chars (fun c => negb (is_space c)) s).
  rewrite Hat, Hsp, IH2. now split.
Qed.


Section More.

Variable env : environment.
Variable w : world.




(** X9: per request the handler makes at most one JSON-RPC call and at
    most one email send, in this order: its outbound calls are none, the
    lookup of the request's hash alone, or that lookup followed by the
    delivery email to the request's address. *)
Theorem X9_at_most_one_lookup_then_one_email (req : request) :
  outbound (snd (run (handler env w req))) = [] \/
  exists e h,
    accepted req e h /\
    (outbound (snd (run (handler env w req)))
     = [RpcPost (rpcUrl env) "eth_getTransactionReceipt" [h]] \/
     outbound (snd (run (handler env w req)))
     = [RpcPost (rpcUrl env) "eth_getTransactionReceipt" [h];
        EmailSend (delivery_mail e)]).
Proof.
  destruct (refused_or_accepted env w req)
    as [(e & h & Hacc) | [[_ Hrun] | (resp & Hrun & _)]].
  - right. exists e, h. split; [exact Hacc |].
    rewrite (run_handler_accepted env w req e h Hacc).
    destruct (rpc w (rpcUrl env) h) as [[r |] | err]; try (now left).
    destruct (String.eqb (status r) "0x1"); [| now left].
    destruct (verifyUSDCTransfer env r) as [[a | reason] | err];
      try (now left).
    right. cbn. now destruct (send w (delivery_mail e)).
  - left. now rewrite Hrun.
  - left. now rewrite Hrun.
Qed.

(** X10: a request that is not a POST, or whose body does not parse, is
    answered at once, without any call and without console output: OPTIONS
    with 200 and no body, another method with 405, an unparsable body with
    400. *)
Theorem X10_refused_at_the_door (req : request) :
  (method req = "OPTIONS" ->
   run (handler env w req) = (Normal (mkResponse 200 cors_headers None), [])) /\
  (method req <> "OPTIONS" -> method req <> "POST" ->
   run (handler env w req)
   = (Normal (mkResponse 405 cors_headers
                (Some [("error", JString "Method not allowed")])), [])) /\
  (method req = "POST" -> parsed req = Unparsable ->
   run (handler env w req)
   = (Normal (mkResponse 400 cors_headers
                (Some [("error", JString "Invalid JSON body")])), [])).
Proof.
  unfold handler. split; [| split].
  - intros ->. reflexivity.
  - intros Ho Hp. apply String.eqb_neq in Ho, Hp. now rewrite Ho, Hp.
  - intros -> ->. reflexivity.
Qed.

(** X11: when the lookup itself fails (the fetch or the decoding of its
    answer throws), an accepted request is answered with the generic 500
    and its message; the failure is logged and no email is sent. *)
Theorem X11_a_failed_lookup_is_a_server_error
  (req : request) (e h : string) (err : error) :
  accepted req e h ->
  rpc w (rpcUrl env) h = Throw err ->
  run (handler env w req)
  = (Normal (mkResponse 500 cors_headers
               (Some [("error", JString
                  "Verification failed. Please email felix@masinov.co with your transaction hash.")])),
     [RpcPost (rpcUrl env) "eth_getTransactionReceipt" [h];
      ConsoleError "Verification error:"]).
Proof.
  intros Hacc Hrpc.
  now rewrite (run_handler_accepted env w req e h Hacc), Hrpc.
Qed.

(** X12: what passes the validations: the hash of an accepted request has
    66 characters and starts with [0x], and its email holds exactly one at
    sign and no white space. *)
Theorem X12_shape_of_validated_input (req : request) (e h : string) :
  accepted req e h ->
  String.length h = 66%nat /\
  starts_with_0x h = true /\
  count_char "@" e = 1%nat /\
  no_white_space e = true.
Proof.
  intros (_ & _ & Hh & He).
  rewrite txHash_pattern_is_32_byte_hex in Hh.
  apply email_pattern_is_basic_address in He.
  split; [| split; [| split]].
  - unfold is_32_byte_hex in Hh.
    destruct h as [| c0 [| c1 d]]; try discriminate Hh;
      try (destruct c0 as [[] [] [] [] [] [] [] []]; discriminate Hh).
    destruct c0 as [[] [] [] [] [] [] [] []]; try discriminate Hh.
    destruct c1 as [[] [] [] [] [] [] [] []]; try discriminate Hh.
    apply andb_true_iff in Hh. destruct Hh as [Hl _].
    apply Nat.eqb_eq in Hl. cbn. now rewrite Hl.
  - unfold is_32_byte_hex in Hh.
    destruct h as [| c0 [| c1 d]]; try discriminate Hh;
      try (destruct c0 as [[] [] [] [] [] [] [] []]; discriminate Hh).
    destruct c0 as [[] [] [] [] [] [] [] []]; try discriminate Hh.
    destruct c1 as [[] [] [] [] [] [] [] []]; try discriminate Hh.
    reflexivity.
  - destruct He as (l & d & t & -> & [_ Hl] & [_ Hd] & [_ Ht]).
    destruct (address_part_clean l Hl) as [Cl _].
    destruct (address_part_clean d Hd) as [Cd _].
    destruct (address_part_clean t Ht) as [Ct _].
    rewrite !count_char_append, Cl, Cd, Ct. reflexivity.
  - destruct He as (l & d & t & -> & [_ Hl] & [_ Hd] & [_ Ht]).
    destruct (address_part_clean l Hl) as [_ Sl].
    destruct (address_part_clean d Hd) as [_ Sd].
    destruct (address_part_clean t Ht) as [_ St].
    unfold no_white_space in *.
    rewrite !all_chars_append, Sl, Sd, St. reflexivity.
Qed.

End More.

End CryptoHandlerMore.

(* ===================================================================== *)
(** * Further properties of the card webhook handler *)
(* ===================================================================== *)

Module CardMore.

Import JSString JSNumber Http Effects StripeWebhook CardChecks MoreChecks.

Lemma truthy_inv (v : option string) :
  truthy_opt v = true -> exists e, v = Some e /\ e <> "".
Proof.
  destruct v as [e |]; [| discriminate]. intros H. exists e. split; [reflexivity |].
  intros ->. discriminate H.
Qed.

(** For an integer amount the test of line 234 is the test on the
    integer. *)
Lemma out_of_band_of_Z (a : Z) :
  out_of_band (Num (of_Z a)) = false <-> 2800 <= a <= 3100.
Proof.
  unfold out_of_band. cbn [to_number]. rewrite CardClaims.band_test_of_Z.
  rewrite orb_false_iff, !Z.ltb_ge. lia.
Qed.

(** Both comparisons of line 234 are false on [NaN]. *)
Lemma out_of_band_NaN (a : amount) :
  to_number a = NaN -> out_of_band a = false.
Proof.
  unfold out_of_band. intros ->. reflexivity.
Qed.

Section More.

Variable w : world.

Lemma run_handler_not_post (req : request) :
  method req <> "POST" ->
  run (handler w req)
  = (Normal (respond 405 [("error", JString "Method not allowed")]), []).
Proof.
  intros H. apply String.eqb_neq in H. unfold handler. now rewrite H.
Qed.

Lemma run_handler_forged (req : request) (err : error) :
  method req = "POST" ->
  constructEvent w (rawBody req) (signature req) = Throw err ->
  run (handler w req)
  = (Normal (respond 400 [("error", JString ("Webhook Error: " ++ message err))]),
     [ConsoleError "Webhook signature verification failed:"]).
Proof.
  intros Hm He. unfold handler. rewrite Hm.
  cbn [String.eqb Ascii.eqb Bool.eqb negb].
  cbv beta iota zeta delta [run try_catch bind emit lift ret app].
  now rewrite He.
Qed.

Lemma run_handler_other (req : request) (ev : stripe_event) :
  method req = "POST" ->
  constructEvent w (rawBody req) (signature req) = Normal ev ->
  type ev <> "checkout.session.completed" ->
  run (handler w req) = (Normal (respond 200 [("received", JBool true)]), []).
Proof.
  intros Hm He Ht. apply String.eqb_neq in Ht. unfold handler. rewrite Hm.
  cbn [String.eqb Ascii.eqb Bool.eqb negb].
  cbv beta iota zeta delta [run try_catch bind emit lift ret app].
  rewrite He. cbv beta iota zeta. now rewrite Ht.
Qed.

(** The four ways a request enters the handler. *)
Lemma request_kinds (req : request) :
  method req <> "POST" \/
  (method req = "POST" /\
   exists err, constructEvent w (rawBody req) (signature req) = Throw err) \/
  (method req = "POST" /\
   exists ev, constructEvent w (rawBody req) (signature req) = Normal ev /\
              type ev <> "checkout.session.completed") \/
  (exists s, verified_checkout w req s).
Proof.
  destruct (String.eqb_spec (method req) "POST") as [Hm | Hm]; [| now left].
  right. destruct (constructEvent w (rawBody req) (signature req))
    as [[t s] | err] eqn:He.
  - destruct (String.eqb_spec t "checkout.session.completed") as [-> | Ht].
    + right. right. exists s. now split.
    + right. left. split; [exact Hm |]. now exists (mkEvent t s).
  - left. split; [exact Hm |]. now exists err.
Qed.

Lemma verified_checkout_unique (req : request) (s1 s2 : session) :
  verified_checkout w req s1 -> verified_checkout w req s2 -> s1 = s2.
Proof.
  intros [_ H1] [_ H2]. congruence.
Qed.

(** X13: the handler fails closed: a request that is not a POST is
    answered 405 without the signature check being run, and a POST whose
    signature check throws is answered 400 with the message of the
    failure; neither sends an email. *)
Theorem X13_refused_without_a_verified_signature (req : request) :
  (method req <> "POST" ->
   run (handler w req)
   = (Normal (mkResponse 405 [] (Some [("error", JString "Method not allowed")])), [])) /\
  (method req = "POST" ->
   forall err, constructEvent w (rawBody req) (signature req) = Throw err ->
   run (handler w req)
   = (Normal (mkResponse 400 []
                (Some [("error", JString ("Webhook Error: " ++ message err))])),
      [ConsoleError "Webhook signature verification failed:"])).
Proof.
  split.
  - apply run_handler_not_post.
  - intros Hm err He. now apply run_handler_forged.
Qed.

(** X14: a verified event of any other kind is acknowledged with 200 and
    [received], whatever its session holds: nothing is logged and no email
    is sent. *)
Theorem X14_other_events_are_acknowledged (req : request) (ev : stripe_event) :
  method req = "POST" ->
  constructEvent w (rawBody req) (signature req) = Normal ev ->
  type ev <> "checkout.session.completed" ->
  run (handler w req)
  = (Normal (mkResponse 200 [] (Some [("received", JBool true)])), []).
Proof.
  apply run_handler_other.
Qed.

(** X15: an email is sent exactly when a checkout passes the band test
    and names a buyer: an email send is in the trace if and only if the
    request is a POST that verifies to a checkout-completed event whose
    amount is not out of band by the two comparisons of the code and whose
    buyer email is a non-empty string, and then it is the delivery email to
    that address. An integer amount is not out of band exactly when it
    lies within [2800, 3100], and [null] is out of band; an amount that is
    absent, or that is no number, is not out of band, because both
    comparisons with [NaN] are false: such a checkout gets the email. *)
Theorem X15_email_exactly_when_not_out_of_band (req : request) :
  (forall m,
     In (EmailSend m) (snd (run (handler w req))) <->
     exists s e,
       verified_checkout w req s /\
       out_of_band (amount_total s) = false /\
       buyer_email s = Some e /\ e <> "" /\
       m = delivery_mail e) /\
  (forall a : Z, out_of_band (Num (of_Z a)) = false <-> 2800 <= a <= 3100) /\
  out_of_band Null = true /\
  out_of_band Absent = false /\
  (forall a, to_number a = NaN -> out_of_band a = false).
Proof.
  split; [| split; [exact out_of_band_of_Z | split; [reflexivity |
    split; [reflexivity | exact out_of_band_NaN]]]].
  intros m. unfold out_of_band. split.
  - intros Hin.
    destruct (request_kinds req)
      as [Hm | [(Hm & err & He) | [(Hm & ev & He & Ht) | (s & Hv)]]].
    + rewrite (run_handler_not_post req Hm) in Hin. destruct Hin.
    + rewrite (run_handler_forged req err Hm He) in Hin.
      cbn in Hin. intuition discriminate.
    + rewrite (run_handler_other req ev Hm He Ht) in Hin. destruct Hin.
    + rewrite (CardClaims.run_handler_checkout w req s Hv) in Hin.
      destruct (lt (to_number (amount_total s)) (of_Z 2800)
                || gt (to_number (amount_total s)) (of_Z 3100)) eqn:Hb;
        [cbn in Hin; intuition discriminate |].
      destruct (truthy_opt (buyer_email s)) eqn:Ht; cbn [negb] in Hin;
        [| cbn in Hin; intuition discriminate].
      destruct (truthy_inv _ Ht) as (e & He & Hne).
      exists s, e. rewrite He in Hin. cbn [VerifyCrypto.str] in Hin.
      assert (Hmail : m = delivery_mail e).
      { destruct (send w (delivery_mail e)); cbn in Hin;
          destruct Hin as [H | [H | [H | []]]]; try discriminate H;
          now injection H as <-. }
      split; [exact Hv | split; [exact Hb |]].
      split; [exact He | split; [exact Hne | exact Hmail]].
  - intros (s & e & Hv & Hb & He & Hne & ->).
    rewrite (CardClaims.run_handler_checkout w req s Hv), Hb, He.
    cbn [truthy_opt VerifyCrypto.str]. rewrite (CardClaims.truthy_nonempty e Hne).
    cbn [negb]. destruct (send w (delivery_mail e)); right; now left.
Qed.

(** X16: the handler answers every request: no exception leaves it, its
    status is 200, 400, 405 or 500, it sets no header, and it sends at most
    one email; it answers 500 exactly when the email send it attempted
    threw. *)
Theorem X16_the_webhook_always_answers (req : request) :
  exists resp,
    fst (run (handler w req)) = Normal resp /\
    headers resp = [] /\
    known_status (status_code resp) = true /\
    (List.length (email_sends (snd (run (handler w req)))) <= 1)%nat /\
    (status_code resp = 500 <->
     exists m err, In (EmailSend m) (snd (run (handler w req))) /\
                   send w m = Throw err).
Proof.
  destruct (request_kinds req)
    as [Hm | [(Hm & err & He) | [(Hm & ev & He & Ht) | (s & Hv)]]].
  - rewrite (run_handler_not_post req Hm). eexists.
    repeat split; try reflexivity; cbn; try lia; try discriminate.
    intros (m & err & [] & _).
  - rewrite (run_handler_forged req err Hm He). eexists.
    repeat split; try reflexivity; cbn; try lia; try discriminate.
    intros (m & err' & Hin & _). cbn in Hin. intuition discriminate.
  - rewrite (run_handler_other req ev Hm He Ht). eexists.
    repeat split; try reflexivity; cbn; try lia; try discriminate.
    intros (m & err & [] & _).
  - rewrite (CardClaims.run_handler_checkout w req s Hv).
    destruct (lt (to_number (amount_total s)) (of_Z 2800)
              || gt (to_number (amount_total s)) (of_Z 3100)).
    { eexists. repeat split; try reflexivity; cbn; try lia; try discriminate.
      intros (m & err & Hin & _). cbn in Hin. intuition discriminate. }
    destruct (truthy_opt (buyer_email s)); cbn [negb].
    2:{ eexists. repeat split; try reflexivity; cbn; try lia; try discriminate.
        intros (m & err & Hin & _). cbn in Hin. intuition discriminate. }
    destruct (send w (delivery_mail (VerifyCrypto.str (buyer_email s))))
      as [[] | err] eqn:Hs.
    + eexists. repeat split; try reflexivity; cbn; try lia; try discriminate.
      intros (m & err & Hin & Hthrow). cbn in Hin.
      destruct Hin as [H | [H | [H | []]]]; try discriminate H.
      injection H as <-. congruence.
    + eexists. repeat split; try reflexivity; cbn; try lia.
      intros _. exists (delivery_mail (VerifyCrypto.str (buyer_email s))), err.
      split; [right; now left | exact Hs].
Qed.

(** X17: the confirmed email is preferred: on a verified checkout within
    the band the email goes to [customer_details.email] when that is a
    non-empty string, whatever [customer_email] holds; when it is absent or
    empty the email goes to [customer_email]. *)
Theorem X17_confirmed_email_is_preferred (req : request) (s : session) (a : Z) :
  verified_checkout w req s ->
  to_number (amount_total s) = of_Z a ->
  2800 <= a <= 3100 ->
  (forall e, details_email_of s = Some e -> e <> "" ->
   email_sends (snd (run (handler w req))) = [EmailSend (delivery_mail e)]) /\
  (forall e, truthy_opt (details_email_of s) = false ->
   customer_email s = Some e -> e <> "" ->
   email_sends (snd (run (handler w req))) = [EmailSend (delivery_mail e)]).
Proof.
  intros Hv Ha Hband.
  rewrite (CardClaims.run_handler_checkout w req s Hv), Ha.
  rewrite (CardClaims.inside_band a Hband). unfold buyer_email, or_else.
  split.
  - intros e He Hne. rewrite He. cbn [truthy_opt].
    rewrite (CardClaims.truthy_nonempty e Hne). cbn [truthy_opt].
    rewrite (CardClaims.truthy_nonempty e Hne). cbn [negb VerifyCrypto.str].
    destruct (send w (delivery_mail e)); reflexivity.
  - intros e Hno He Hne. rewrite Hno, He. cbn [truthy_opt].
    rewrite (CardClaims.truthy_nonempty e Hne). cbn [negb VerifyCrypto.str].
    destruct (send w (delivery_mail e)); reflexivity.
Qed.

(** X18: the scope of the [try] block: the handler with its [try] around
    the signature check alone, as the source scopes it, runs as the
    handler with the rest of the function inside the block does, from
    every trace: the code behind the block never throws. *)
Theorem X18_nothing_behind_the_signature_check_throws (req : request) :
  (forall ev tr, exists resp tr',
     after_signature w ev tr = (Normal resp, (tr ++ tr')%list)) /\
  (forall tr, handler w req tr = handler_as_written w req tr).
Proof.
  split.
  - intros ev tr. unfold after_signature.
    cbv beta iota zeta delta [try_catch bind emit lift ret].
    destruct (String.eqb (type ev) "checkout.session.completed").
    + destruct (lt (to_number (amount_total (object ev))) (of_Z 2800)
                || gt (to_number (amount_total (object ev))) (of_Z 3100)).
      * eexists. eexists. rewrite <- app_assoc. reflexivity.
      * destruct (negb (truthy_opt (or_else (details_email_of (object ev))
                                      (customer_email (object ev))))).
        -- eexists. eexists. rewrite <- app_assoc. reflexivity.
        -- destruct (send w _) as [[] | err];
             eexists; eexists; rewrite <- !app_assoc; reflexivity.
    + exists (respond 200 (JObject [("received", JBool true)])), [].
      now rewrite app_nil_r.
  - intros tr. unfold handler, handler_as_written, after_signature.
    destruct (negb (String.eqb (method req) "POST")); [reflexivity |].
    cbv beta iota zeta delta [try_catch bind emit lift ret].
    destruct (constructEvent w (rawBody req) (signature req)) as [ev | err];
      [| reflexivity].
    destruct (String.eqb (type ev) "checkout.session.completed");
      [| reflexivity].
    destruct (lt (to_number (amount_total (object ev))) (of_Z 2800)
              || gt (to_number (amount_total (object ev))) (of_Z 3100));
      [reflexivity |].
    destruct (negb (truthy_opt (or_else (details_email_of (object ev))
                                  (customer_email (object ev)))));
      [reflexivity |].
    destruct (send w _) as [[] | err]; reflexivity.
Qed.

(** X19: a verified checkout whose [amount_total] is [null] counts as an
    amount of 0: it is skipped with 200, and no email is sent. *)
Theorem X19_null_amount_is_skipped (req : request) (s : session) :
  verified_checkout w req s ->
  amount_total s = Null ->
  run (handler w req)
  = (Normal (mkResponse 200 [] (Some [("received", JBool true); ("skipped", JBool true)])),
     [ConsoleLog "Checkout session:"; ConsoleLog "Skipping non-felixcraft purchase:"]).
Proof.
  intros Hv Ha. now rewrite (CardClaims.run_handler_checkout w req s Hv), Ha.
Qed.

End More.

End CardMore.

(* ===================================================================== *)
(** * The further properties on sample requests, receipts and events *)
(* ===================================================================== *)

Module MoreInstances.

Import JSString JSNumber Regex Http Effects MoreChecks.
Import Instances.

Module Crypto.

Import VerifyCrypto CryptoChecks Samples.Crypto MoreSamples.Crypto.
Import CryptoMore CryptoHandlerMore.

(** The valid result for a Transfer of 29,000,000 behind a foreign log and
    a Transfer of 50,000,000 comes from a log that passes every check. *)
Lemma X1_on_samples :
  let r := receipt_of [foreign_log; transfer_log data_50; transfer_log data_29] in
  exists pre l post n,
    logs r = Some (pre ++ l :: post)%list /\
    Forall (fun x => passed_over env x = true) pre /\
    emitter_is_token l = true /\ first_topic_is_transfer l = true /\
    (wallet_configured env = true -> destination_is_wallet env l = true) /\
    decoded l = Some n /\ 28000000 <= n <= 35000000 /\
    of_Z 29 = div (of_Z n) (of_Z 1000000).
Proof.
  intros r. apply (X1_valid_only_for_a_qualifying_transfer env r (of_Z 29)).
  evaluate.
Defined.

(** The refusal of a Transfer of 27,000,000 is the second of the two. *)
Lemma X2_on_samples :
  let r := receipt_of [foreign_log; elsewhere_log data_29;
                       transfer_log data_27; transfer_log data_29] in
  let reason := "Payment amount ($27.00) is below the required amount." in
  (reason = "No valid USDC transfer found in this transaction. Please check the transaction hash." /\
   forall ls, logs r = Some ls -> Forall (fun x => passed_over env x = true) ls) \/
  (exists pre l post n,
     logs r = Some (pre ++ l :: post)%list /\
     Forall (fun x => passed_over env x = true) pre /\
     matching env l = true /\ decoded l = Some n /\ n < 28000000 /\
     reason = below_reason (amount_of l)).
Proof.
  intros r reason. apply (X2_the_two_refusals env r reason). evaluate.
Defined.

(** The receipt with a two-topic Transfer log throws; a receipt of
    well-formed logs returns. *)
Lemma X3_on_samples :
  (exists pre l post,
     logs (receipt_of [foreign_log; short_log]) = Some (pre ++ l :: post)%list /\
     Forall (fun x => passed_over env x = true) pre /\
     lacks_destination l = true) /\
  (exists t, verifyUSDCTransfer env (receipt_of [foreign_log; transfer_log data_50]) = Normal t).
Proof.
  split.
  - refine (proj2 (proj1 (X3_only_a_short_transfer_log_throws env
                            (receipt_of [foreign_log; short_log]))
                     slice_of_undefined _)).
    evaluate.
  - refine (proj1 (proj2 (X3_only_a_short_transfer_log_throws env
                            (receipt_of [foreign_log; transfer_log data_50])) _)).
    intros ls Hls. injection Hls as <-. each_log.
Defined.

(** Without a wallet a Transfer of 29,000,000 to anyone is valid. *)
Lemma X4_on_samples :
  verify_log env_open (elsewhere_log data_29) = Normal (Some (Valid (of_Z 29))) /\
  verify_log env_own_node (elsewhere_log data_29) = Normal (Some (Valid (of_Z 29))).
Proof.
  split.
  - refine (eq_trans (X4_no_wallet_no_destination_check env_open
                        (elsewhere_log data_29) to_other 29000000
                        (or_introl eq_refl) _ _ _ _ _) _);
      [evaluate | evaluate | evaluate | evaluate | lia | evaluate].
  - refine (eq_trans (X4_no_wallet_no_destination_check env_own_node
                        (elsewhere_log data_29) to_other 29000000
                        (or_intror eq_refl) _ _ _ _ _) _);
      [evaluate | evaluate | evaluate | evaluate | lia | evaluate].
Defined.

(** With the wallet configured without its [0x], the Transfer of
    29,000,000 to it is not found. *)
Lemma X5_on_samples :
  let r := receipt_of [transfer_log data_29] in
  verifyUSDCTransfer env_no_prefix r
  = Normal (Invalid "No valid USDC transfer found in this transaction. Please check the transaction hash.") \/
  verifyUSDCTransfer env_no_prefix r = Throw slice_of_undefined.
Proof.
  intros r. apply (X5_wallet_without_0x_matches_nothing env_no_prefix r); evaluate.
Defined.


(** A preflight, a GET and a POST without a parsable body. *)
Lemma X10_on_samples :
  run (handler env world_down (mkRequest "OPTIONS" Unparsable))
  = (Normal (mkResponse 200 cors_headers None), []) /\
  run (handler env world_down (mkRequest "GET" Unparsable))
  = (Normal (mkResponse 405 cors_headers
               (Some [("error", JString "Method not allowed")])), []) /\
  run (handler env world_down (mkRequest "POST" Unparsable))
  = (Normal (mkResponse 400 cors_headers
               (Some [("error", JString "Invalid JSON body")])), []).
Proof.
  split; [| split].
  - refine (proj1 (X10_refused_at_the_door env world_down
                     (mkRequest "OPTIONS" Unparsable)) eq_refl).
  - refine (proj1 (proj2 (X10_refused_at_the_door env world_down
                            (mkRequest "GET" Unparsable))) _ _); discriminate.
  - refine (proj2 (proj2 (X10_refused_at_the_door env world_down
                            (mkRequest "POST" Unparsable))) eq_refl eq_refl).
Defined.

(** A node that cannot be reached. *)
Lemma X11_on_samples :
  run (handler env world_down request_ok)
  = (Normal (mkResponse 500 cors_headers
               (Some [("error", JString
                  "Verification failed. Please email felix@masinov.co with your transaction hash.")])),
     [RpcPost (rpcUrl env) "eth_getTransactionReceipt" [tx];
      ConsoleError "Verification error:"]).
Proof.
  apply (X11_a_failed_lookup_is_a_server_error env world_down request_ok
           buyer tx (Error "fetch failed")); [is_accepted | reflexivity].
Defined.

(** The sample request. *)
Lemma X12_on_samples :
  String.length tx = 66%nat /\
  starts_with_0x tx = true /\
  count_char "@" buyer = 1%nat /\
  no_white_space buyer = true.
Proof.
  apply (X12_shape_of_validated_input request_ok buyer tx). is_accepted.
Defined.

End Crypto.

Module Card.

Import StripeWebhook CardChecks Samples.Card MoreSamples.Card CardMore.

(** A GET, and a POST whose signature does not verify. *)
Lemma X13_on_samples :
  run (handler world_forged (mkRequest "GET" "" None))
  = (Normal (mkResponse 405 [] (Some [("error", JString "Method not allowed")])), []) /\
  run (handler world_forged request_ok)
  = (Normal (mkResponse 400 []
               (Some [("error", JString
                  "Webhook Error: No signatures found matching the expected signature for payload")])),
     [ConsoleError "Webhook signature verification failed:"]).
Proof.
  split.
  - refine (proj1 (X13_refused_without_a_verified_signature world_forged
                     (mkRequest "GET" "" None)) _). discriminate.
  - refine (proj2 (X13_refused_without_a_verified_signature world_forged
                     request_ok) eq_refl _ eq_refl).
Defined.

(** A verified event of another kind, for a session within the band. *)
Lemma X14_on_samples :
  run (handler (world_other both_emails) request_ok)
  = (Normal (mkResponse 200 [] (Some [("received", JBool true)])), []).
Proof.
  apply (X14_other_events_are_acknowledged (world_other both_emails) request_ok
           (mkEvent "payment_intent.succeeded" both_emails));
    [reflexivity | reflexivity | discriminate].
Defined.

(** The email for a checkout of 3100 units is in the trace, also when the
    email service is down. *)
Lemma X15_on_samples :
  In (EmailSend (delivery_mail "buyer@example.com"))
     (snd (run (handler (world_of (checkout (cents 3100) (Some "buyer@example.com")) mail_down)
                  request_ok))) /\
  In (EmailSend (delivery_mail "buyer@example.com"))
     (snd (run (handler (world_of (checkout Absent (Some "buyer@example.com")) (Normal tt))
                  request_ok))).
Proof.
  split.
  - apply (proj2 (proj1 (X15_email_exactly_when_not_out_of_band _ request_ok) _)).
    exists (checkout (cents 3100) (Some "buyer@example.com")), "buyer@example.com".
    split; [split; reflexivity |]. split; [evaluate |].
    split; [reflexivity |]. split; [discriminate | reflexivity].
  - apply (proj2 (proj1 (X15_email_exactly_when_not_out_of_band _ request_ok) _)).
    exists (checkout Absent (Some "buyer@example.com")), "buyer@example.com".
    split; [split; reflexivity |]. split; [evaluate |].
    split; [reflexivity |]. split; [discriminate | reflexivity].
Defined.

(** With both emails the confirmed one is written to; with an empty
    confirmed email the typed one. *)
Lemma X17_on_samples :
  email_sends (snd (run (handler (world_of both_emails (Normal tt)) request_ok)))
  = [EmailSend (delivery_mail "confirmed@example.com")] /\
  email_sends (snd (run (handler (world_of typed_only (Normal tt)) request_ok)))
  = [EmailSend (delivery_mail "typed@example.com")].
Proof.
  split.
  - refine (proj1 (X17_confirmed_email_is_preferred (world_of both_emails (Normal tt))
                     request_ok both_emails 2900 _ eq_refl _)
              "confirmed@example.com" eq_refl _);
      [split; reflexivity | lia | discriminate].
  - refine (proj2 (X17_confirmed_email_is_preferred (world_of typed_only (Normal tt))
                     request_ok typed_only 2900 _ eq_refl _)
              "typed@example.com" eq_refl eq_refl _);
      [split; reflexivity | lia | discriminate].
Defined.

(** A checkout without an amount. *)
Lemma X19_on_samples :
  run (handler (world_of (checkout Null (Some "buyer@example.com")) (Normal tt)) request_ok)
  = (Normal (mkResponse 200 [] (Some [("received", JBool true); ("skipped", JBool true)])),
     [ConsoleLog "Checkout session:"; ConsoleLog "Skipping non-felixcraft purchase:"]).
Proof.
  apply (X19_null_amount_is_skipped _ request_ok
           (checkout Null (Some "buyer@example.com")));
    [split; reflexivity | reflexivity].
Defined.

End Card.

End MoreInstances.
